(** * BioNova medical image viewer: the orchestration code and its contract

    The development embeds the Python sources of the viewer
    ([src/core/medical_logger.py], [src/core/image_processor.py],
    [src/core/vtk_renderer.py], [src/main_application.py]) and settles the
    statements of the specification on them.

    Conventions of the embedding.
    - Python [float] is IEEE binary64: Rocq's primitive [float].
    - [str] is [string]; an f-string is the concatenation of its pieces.
    - Attributes that hold [None] or an object are [option]s.
    - A method that mutates [self] is a computation over the state of the
      objects it can reach; a raised exception keeps the mutations made
      before it, as in Python. *)

From Stdlib Require Import PrimFloat.
From stdpp Require Import gmap strings list.

Set Default Proof Using "Type".
Set Warnings "-inexact-float,-register-all,-clear-no-such-hyp".

(** ** Part I. [core/medical_logger.py] *)

Module Logger.

(** Numeric levels of the [logging] module. *)
Definition INFO : nat := 20.
Definition WARNING : nat := 30.
Definition ERROR : nat := 40.
Definition CRITICAL : nat := 50.

Definition level_name (lvl : nat) : string :=
  if decide (lvl = INFO) then "INFO"
  else if decide (lvl = WARNING) then "WARNING"
  else if decide (lvl = ERROR) then "ERROR"
  else if decide (lvl = CRITICAL) then "CRITICAL"
  else "Level".

(** The two formatters of [_setup_loggers]. The [%(asctime)s] prefix is
    the wall clock and is left out of the line. *)
Inductive formatter := detailed_formatter | audit_formatter.

Fixpoint spaces (n : nat) : string :=
  match n with
  | O => ""
  | S k => " " +:+ spaces k
  end.

(** [%(levelname)8s]: right-justified in a field of eight. *)
Definition rjust8 (s : string) : string :=
  spaces (8 - String.length s) +:+ s.

Definition format_line (f : formatter) (lvl : nat) (name msg : string) : string :=
  match f with
  | detailed_formatter => rjust8 (level_name lvl) +:+ " | " +:+ name +:+ " | " +:+ msg
  | audit_formatter => "AUDIT | " +:+ msg
  end.

(** A [logging.Logger] with the single [RotatingFileHandler] that
    [_setup_loggers] attaches to it. [lg_stream] is the sequence of lines
    the handler has written, oldest first; the split of that sequence
    into rotated segments is not represented. *)
Record py_logger := mk_py_logger {
  lg_name : string;
  lg_level : nat;
  lg_formatter : formatter;
  lg_stream : list string
}.

(** [Logger.log(level, msg)]: dropped when the logger is not enabled for
    the level, else formatted and written by the handler. *)
Definition emit (lvl : nat) (msg : string) (lg : py_logger) : py_logger :=
  if decide (lg_level lg ≤ lvl) then
    {| lg_name := lg_name lg; lg_level := lg_level lg;
       lg_formatter := lg_formatter lg;
       lg_stream := lg_stream lg ++ [format_line (lg_formatter lg) lvl (lg_name lg) msg] |}
  else lg.

Record MedicalLogger := mk_logger {
  log_dir : string;
  max_file_size : Z;
  backup_count : Z;
  _lock : bool;            (* [threading.Lock]: [true] while held *)
  event_logger : py_logger;
  error_logger : py_logger;
  audit_logger : py_logger
}.

Definition set_lock (b : bool) (s : MedicalLogger) : MedicalLogger :=
  {| log_dir := log_dir s; max_file_size := max_file_size s;
     backup_count := backup_count s; _lock := b;
     event_logger := event_logger s; error_logger := error_logger s;
     audit_logger := audit_logger s |}.

Definition on_event (f : py_logger → py_logger) (s : MedicalLogger) : MedicalLogger :=
  {| log_dir := log_dir s; max_file_size := max_file_size s;
     backup_count := backup_count s; _lock := _lock s;
     event_logger := f (event_logger s); error_logger := error_logger s;
     audit_logger := audit_logger s |}.

Definition on_error (f : py_logger → py_logger) (s : MedicalLogger) : MedicalLogger :=
  {| log_dir := log_dir s; max_file_size := max_file_size s;
     backup_count := backup_count s; _lock := _lock s;
     event_logger := event_logger s; error_logger := f (error_logger s);
     audit_logger := audit_logger s |}.

Definition on_audit (f : py_logger → py_logger) (s : MedicalLogger) : MedicalLogger :=
  {| log_dir := log_dir s; max_file_size := max_file_size s;
     backup_count := backup_count s; _lock := _lock s;
     event_logger := event_logger s; error_logger := error_logger s;
     audit_logger := f (audit_logger s) |}.

(** A call on the logger either returns, or blocks for ever in
    [Lock.acquire]: the program has one thread (spec, section 5), so a
    lock that is held when [acquire] is called is held by the caller
    itself and nobody is left to release it. *)
Inductive outcome (A : Type) :=
| Returned (a : A) (s : MedicalLogger)
| Blocked (s : MedicalLogger).
Arguments Returned {A} a s.
Arguments Blocked {A} s.

Definition L (A : Type) := MedicalLogger → outcome A.

Definition ret {A} (a : A) : L A := λ s, Returned a s.

Definition bind {A B} (m : L A) (k : A → L B) : L B :=
  λ s, match m s with
       | Returned a s' => k a s'
       | Blocked s' => Blocked s'
       end.

Definition modify (f : MedicalLogger → MedicalLogger) : L unit :=
  λ s, Returned () (f s).

Definition acquire : L unit :=
  λ s, if _lock s then Blocked s else Returned () (set_lock true s).

Definition release : L unit := modify (set_lock false).

(** [with self._lock: body] *)
Definition with_lock {A} (body : L A) : L A :=
  bind acquire (λ _, bind body (λ a, bind release (λ _, ret a))).

(** [str.upper] on the ASCII letters; other bytes are kept. *)
Definition upper_ascii (c : Ascii.ascii) : Ascii.ascii :=
  let n := Ascii.N_of_ascii c in
  if ((97 <=? n)%N && (n <=? 122)%N)%bool then Ascii.ascii_of_N (n - 32) else c.

Fixpoint upper (s : string) : string :=
  match s with
  | EmptyString => EmptyString
  | String c r => String (upper_ascii c) (upper r)
  end.

Definition log_event (event_type message severity : string) : L unit :=
  with_lock
    (let formatted_message := event_type +:+ " | " +:+ message in
     if decide (upper severity = "INFO") then
       modify (on_event (emit INFO formatted_message))
     else if decide (upper severity = "WARNING") then
       modify (on_event (emit WARNING formatted_message))
     else if decide (upper severity = "ERROR") then
       bind (modify (on_event (emit ERROR formatted_message)))
            (λ _, modify (on_error (emit ERROR formatted_message)))
     else if decide (upper severity = "CRITICAL") then
       bind (modify (on_event (emit CRITICAL formatted_message)))
            (λ _, modify (on_error (emit CRITICAL formatted_message)))
     else ret ()).

(** [if details:] and [if stack_trace:] test for a non-empty string. *)
Definition truthy_str (s : string) : bool :=
  match s with EmptyString => false | _ => true end.

Definition log_user_action (action details : string) : L unit :=
  let message := "USER_ACTION | " +:+ action in
  let message := if truthy_str details then message +:+ " | " +:+ details else message in
  with_lock
    (bind (modify (on_audit (emit INFO message)))
          (λ _, log_event "USER_ACTION" (action +:+ " - " +:+ details) "INFO")).

Definition log_file_operation (operation filepath result : string) : L unit :=
  let message := "FILE_OP | " +:+ operation +:+ " | " +:+ filepath +:+ " | " +:+ result in
  with_lock
    (bind (modify (on_audit (emit INFO message)))
          (λ _, if decide (result = "SUCCESS")
                then log_event "FILE_OPERATION" message "INFO"
                else log_event "FILE_OPERATION" message "ERROR")).

Definition log_image_processing (operation image_info result : string) : L unit :=
  let message := "IMAGE_PROC | " +:+ operation +:+ " | " +:+ image_info +:+ " | " +:+ result in
  with_lock
    (bind (modify (on_audit (emit INFO message)))
          (λ _, if decide (result = "SUCCESS")
                then log_event "IMAGE_PROCESSING" message "INFO"
                else log_event "IMAGE_PROCESSING" message "ERROR")).

Definition log_system_event (event details : string) : L unit :=
  let message := "SYSTEM | " +:+ event in
  let message := if truthy_str details then message +:+ " | " +:+ details else message in
  with_lock
    (bind (modify (on_audit (emit INFO message)))
          (λ _, log_event "SYSTEM" (event +:+ " - " +:+ details) "INFO")).

Definition log_error (error_type error_message : string) (stack_trace : option string) : L unit :=
  let message := "ERROR | " +:+ error_type +:+ " | " +:+ error_message in
  let message :=
    match stack_trace with
    | Some st => if truthy_str st then message +:+ " | STACK: " +:+ st else message
    | None => message
    end in
  with_lock
    (bind (modify (on_error (emit ERROR message)))
          (λ _, bind (modify (on_audit (emit ERROR message)))
                     (λ _, log_event "ERROR" message "ERROR"))).

(** [_setup_loggers]: three loggers, handlers cleared, one fresh
    handler each. *)
Definition _setup_loggers (dir : string) (size count : Z) : MedicalLogger :=
  {| log_dir := dir; max_file_size := size; backup_count := count;
     _lock := false;
     event_logger := mk_py_logger "medical_events" INFO detailed_formatter [];
     error_logger := mk_py_logger "medical_errors" ERROR detailed_formatter [];
     audit_logger := mk_py_logger "medical_audit" INFO audit_formatter [] |}.

(** [MedicalLogger(log_dir, max_file_size, backup_count)] on a directory
    that can be created; the constructor ends with one [log_event]. *)
Definition new_logger (dir : string) (size count : Z) : outcome unit :=
  log_event "SYSTEM" "Medical Logger initialized" "INFO" (_setup_loggers dir size count).

Definition default_logger : outcome unit := new_logger "logs" 10485760%Z 5%Z.

(** The three streams of a logger. *)
Definition event_stream (s : MedicalLogger) : list string := lg_stream (event_logger s).
Definition error_stream (s : MedicalLogger) : list string := lg_stream (error_logger s).
Definition audit_stream (s : MedicalLogger) : list string := lg_stream (audit_logger s).

End Logger.

Export Logger.

(** ** Part II. The viewer: data of the external libraries *)

(** The values a metadata dictionary holds: strings, integers, floats and
    tuples of these. None of them can be mutated. *)
Inductive value :=
| VStr (s : string)
| VInt (z : Z)
| VFloat (x : float)
| VTuple (l : list value).

(** The text of a message: the pieces of an f-string, a formatted value
    kept as the value. *)
Inductive piece :=
| T (s : string)
| V (v : value).

Abbreviation text := (list piece).

(** A raised exception; [exn_msg] is [str(e)]. *)
Record exn := mk_exn { exn_msg : text }.

(** [traceback.format_exc()] *)
Definition format_exc (e : exn) : text :=
  T "Traceback (most recent call last): " :: exn_msg e.

Definition AttributeError (attr : string) : exn :=
  mk_exn [T "object has no attribute '"; T attr; T "'"].

(** A SimpleITK image, as the properties the program reads from it. *)
Record sitk_image := mk_sitk_image {
  img_size : list Z;                    (* GetSize() *)
  img_spacing : list float;             (* GetSpacing() *)
  img_origin : list float;              (* GetOrigin() *)
  img_direction : list float;           (* GetDirection() *)
  img_pixel_type : string;              (* GetPixelIDTypeAsString() *)
  img_components : Z;                   (* GetNumberOfComponentsPerPixel() *)
  img_meta : list (string * string);    (* GetMetaDataKeys(), GetMetaData(key) *)
  img_pixels : list float;              (* GetArrayFromImage(image).ravel() *)
  img_range : float * float             (* least and greatest pixel *)
}.

(** A [vtkImageData], as what [convert_sitk_to_vtk] puts into it and what
    [GetScalarRange()] answers. *)
Record vtk_image := mk_vtk_image {
  vtk_dimensions : list Z;
  vtk_spacing : list float;
  vtk_origin : list float;
  vtk_scalars : list float;
  GetScalarRange : float * float
}.

(** A [vtkPolyData] read from an STL file. *)
Record polydata := mk_polydata {
  GetNumberOfPoints : Z;
  GetNumberOfCells : Z;
  GetBounds : list float
}.

(** What is on disk at a directory given to the DICOM reader. *)
Record dicom_dir := mk_dicom_dir {
  dd_exists : bool;                          (* Path(directory).exists() *)
  dd_series_ids : list string;               (* GetGDCMSeriesIDs(directory) *)
  dd_file_names : string → list string;      (* GetGDCMSeriesFileNames(directory, id) *)
  dd_image : list string → sitk_image        (* SetFileNames(names); Execute() *)
}.

(** What is on disk at a path given to the STL reader. *)
Record stl_file := mk_stl_file {
  sf_exists : bool;                          (* Path(filepath).exists() *)
  sf_output : polydata;                      (* reader.Update(); reader.GetOutput() *)
  sf_size : Z                                (* Path(filepath).stat().st_size *)
}.

(** ** The objects of the scene *)

Inductive interactor_style :=
| vtkInteractorStyleImage
| vtkInteractorStyleTrackballCamera.

(** The props a [vtkRenderer] shows: each is the object held by the
    attribute of the same name. *)
Inductive view_prop := prop_image_actor | prop_volume | prop_stl_actor.

Record vtkRenderer := mk_vtkRenderer {
  background : option (float * float * float);   (* SetBackground *)
  view_props : list view_prop
}.

Record vtkRenderWindow := mk_vtkRenderWindow {
  rw_has_renderer : bool                     (* AddRenderer(renderer) *)
}.

Record vtkRenderWindowInteractor := mk_vtkInteractor {
  int_qt_widget : bool;                      (* QVTKRenderWindowInteractor(parent) *)
  int_render_window : bool;                  (* SetRenderWindow(render_window) *)
  int_style : option interactor_style        (* SetInteractorStyle(style) *)
}.

Record vtkImageMapToWindowLevelColors := mk_window_level {
  wl_input : option vtk_image;               (* SetInputData *)
  wl_window : option float;                  (* SetWindow *)
  wl_level : option float;                   (* SetLevel *)
  wl_updated : bool                          (* Update() since creation *)
}.

Record vtkImageActor := mk_image_actor {
  ia_input_connection : bool                 (* fed by window_level's output port *)
}.

Record vtkGPUVolumeRayCastMapper := mk_volume_mapper {
  vm_input : option vtk_image
}.

(** [vtkVolumeProperty]; its colour and opacity are the objects held by
    [color_func] and [opacity_func]. *)
Record vtkVolumeProperty := mk_volume_property {
  vp_color : bool;
  vp_scalar_opacity : bool;
  vp_shade : bool;
  vp_interpolation_linear : bool;
  vp_ambient : option float;
  vp_diffuse : option float;
  vp_specular : option float
}.

Record vtkVolume := mk_volume {
  vol_mapper : bool;                         (* SetMapper(volume_mapper) *)
  vol_property : option vtkVolumeProperty
}.

Record vtkPolyDataMapper := mk_stl_mapper {
  sm_input : option polydata
}.

Record vtkActor := mk_stl_actor {
  sa_mapper : bool;                          (* SetMapper(stl_mapper) *)
  sa_color : option (float * float * float);
  sa_specular : option float;
  sa_specular_power : option float;
  sa_diffuse : option float;
  sa_ambient : option float
}.

(** A colour node [(x, r, g, b)] and an opacity node [(x, a)]. A transfer
    function is the list of nodes in the order the program added them
    since the last [RemoveAllPoints()]. *)
Definition rgb_point : Type := float * float * float * float.
Definition opacity_point : Type := float * float.

(** ** The state of the three Python objects *)

Module IP.
Record ImageProcessor := mk {
  current_sitk_image : option sitk_image;
  current_vtk_image : option vtk_image;
  current_polydata : option polydata;
  image_metadata : positive             (* reference to a [dict] *)
}.
Definition set_current_sitk_image v (s : ImageProcessor) : ImageProcessor :=
  {| current_sitk_image := v; current_vtk_image := current_vtk_image s; current_polydata
     := current_polydata s; image_metadata := image_metadata s |}.
Definition set_current_vtk_image v (s : ImageProcessor) : ImageProcessor :=
  {| current_sitk_image := current_sitk_image s; current_vtk_image := v; current_polydata
     := current_polydata s; image_metadata := image_metadata s |}.
Definition set_current_polydata v (s : ImageProcessor) : ImageProcessor :=
  {| current_sitk_image := current_sitk_image s; current_vtk_image := current_vtk_image
     s; current_polydata := v; image_metadata := image_metadata s |}.
Definition set_image_metadata v (s : ImageProcessor) : ImageProcessor :=
  {| current_sitk_image := current_sitk_image s; current_vtk_image := current_vtk_image
     s; current_polydata := current_polydata s; image_metadata := v |}.
End IP.

Module VR.
Record VTKRenderer := mk {
  render_window : option vtkRenderWindow;
  renderer : option vtkRenderer;
  interactor : option vtkRenderWindowInteractor;
  current_style : option interactor_style;
  current_vtk_image : option vtk_image;
  current_polydata : option polydata;
  current_display_mode : option string;    (* '2D', '3D_VOLUME', 'STL' *)
  image_actor : option vtkImageActor;
  window_level : option vtkImageMapToWindowLevelColors;
  volume_mapper : option vtkGPUVolumeRayCastMapper;
  volume : option vtkVolume;
  color_func : option (list rgb_point);
  opacity_func : option (list opacity_point);
  stl_mapper : option vtkPolyDataMapper;
  stl_actor : option vtkActor
}.
Definition set_render_window v (s : VTKRenderer) : VTKRenderer :=
  {| render_window := v; renderer := renderer s; interactor := interactor s;
     current_style := current_style s; current_vtk_image := current_vtk_image s;
     current_polydata := current_polydata s; current_display_mode := current_display_mode
     s; image_actor := image_actor s; window_level := window_level s; volume_mapper :=
     volume_mapper s; volume := volume s; color_func := color_func s; opacity_func :=
     opacity_func s; stl_mapper := stl_mapper s; stl_actor := stl_actor s |}.
Definition set_renderer v (s : VTKRenderer) : VTKRenderer :=
  {| render_window := render_window s; renderer := v; interactor := interactor s;
     current_style := current_style s; current_vtk_image := current_vtk_image s;
     current_polydata := current_polydata s; current_display_mode := current_display_mode
     s; image_actor := image_actor s; window_level := window_level s; volume_mapper :=
     volume_mapper s; volume := volume s; color_func := color_func s; opacity_func :=
     opacity_func s; stl_mapper := stl_mapper s; stl_actor := stl_actor s |}.
Definition set_interactor v (s : VTKRenderer) : VTKRenderer :=
  {| render_window := render_window s; renderer := renderer s; interactor := v;
     current_style := current_style s; current_vtk_image := current_vtk_image s;
     current_polydata := current_polydata s; current_display_mode := current_display_mode
     s; image_actor := image_actor s; window_level := window_level s; volume_mapper :=
     volume_mapper s; volume := volume s; color_func := color_func s; opacity_func :=
     opacity_func s; stl_mapper := stl_mapper s; stl_actor := stl_actor s |}.
Definition set_current_style v (s : VTKRenderer) : VTKRenderer :=
  {| render_window := render_window s; renderer := renderer s; interactor := interactor
     s; current_style := v; current_vtk_image := current_vtk_image s; current_polydata :=
     current_polydata s; current_display_mode := current_display_mode s; image_actor :=
     image_actor s; window_level := window_level s; volume_mapper := volume_mapper s;
     volume := volume s; color_func := color_func s; opacity_func := opacity_func s;
     stl_mapper := stl_mapper s; stl_actor := stl_actor s |}.
Definition set_current_vtk_image v (s : VTKRenderer) : VTKRenderer :=
  {| render_window := render_window s; renderer := renderer s; interactor := interactor
     s; current_style := current_style s; current_vtk_image := v; current_polydata :=
     current_polydata s; current_display_mode := current_display_mode s; image_actor :=
     image_actor s; window_level := window_level s; volume_mapper := volume_mapper s;
     volume := volume s; color_func := color_func s; opacity_func := opacity_func s;
     stl_mapper := stl_mapper s; stl_actor := stl_actor s |}.
Definition set_current_polydata v (s : VTKRenderer) : VTKRenderer :=
  {| render_window := render_window s; renderer := renderer s; interactor := interactor
     s; current_style := current_style s; current_vtk_image := current_vtk_image s;
     current_polydata := v; current_display_mode := current_display_mode s; image_actor
     := image_actor s; window_level := window_level s; volume_mapper := volume_mapper s;
     volume := volume s; color_func := color_func s; opacity_func := opacity_func s;
     stl_mapper := stl_mapper s; stl_actor := stl_actor s |}.
Definition set_current_display_mode v (s : VTKRenderer) : VTKRenderer :=
  {| render_window := render_window s; renderer := renderer s; interactor := interactor
     s; current_style := current_style s; current_vtk_image := current_vtk_image s;
     current_polydata := current_polydata s; current_display_mode := v; image_actor :=
     image_actor s; window_level := window_level s; volume_mapper := volume_mapper s;
     volume := volume s; color_func := color_func s; opacity_func := opacity_func s;
     stl_mapper := stl_mapper s; stl_actor := stl_actor s |}.
Definition set_image_actor v (s : VTKRenderer) : VTKRenderer :=
  {| render_window := render_window s; renderer := renderer s; interactor := interactor
     s; current_style := current_style s; current_vtk_image := current_vtk_image s;
     current_polydata := current_polydata s; current_display_mode := current_display_mode
     s; image_actor := v; window_level := window_level s; volume_mapper := volume_mapper
     s; volume := volume s; color_func := color_func s; opacity_func := opacity_func s;
     stl_mapper := stl_mapper s; stl_actor := stl_actor s |}.
Definition set_window_level v (s : VTKRenderer) : VTKRenderer :=
  {| render_window := render_window s; renderer := renderer s; interactor := interactor
     s; current_style := current_style s; current_vtk_image := current_vtk_image s;
     current_polydata := current_polydata s; current_display_mode := current_display_mode
     s; image_actor := image_actor s; window_level := v; volume_mapper := volume_mapper
     s; volume := volume s; color_func := color_func s; opacity_func := opacity_func s;
     stl_mapper := stl_mapper s; stl_actor := stl_actor s |}.
Definition set_volume_mapper v (s : VTKRenderer) : VTKRenderer :=
  {| render_window := render_window s; renderer := renderer s; interactor := interactor
     s; current_style := current_style s; current_vtk_image := current_vtk_image s;
     current_polydata := current_polydata s; current_display_mode := current_display_mode
     s; image_actor := image_actor s; window_level := window_level s; volume_mapper := v;
     volume := volume s; color_func := color_func s; opacity_func := opacity_func s;
     stl_mapper := stl_mapper s; stl_actor := stl_actor s |}.
Definition set_volume v (s : VTKRenderer) : VTKRenderer :=
  {| render_window := render_window s; renderer := renderer s; interactor := interactor
     s; current_style := current_style s; current_vtk_image := current_vtk_image s;
     current_polydata := current_polydata s; current_display_mode := current_display_mode
     s; image_actor := image_actor s; window_level := window_level s; volume_mapper :=
     volume_mapper s; volume := v; color_func := color_func s; opacity_func :=
     opacity_func s; stl_mapper := stl_mapper s; stl_actor := stl_actor s |}.
Definition set_color_func v (s : VTKRenderer) : VTKRenderer :=
  {| render_window := render_window s; renderer := renderer s; interactor := interactor
     s; current_style := current_style s; current_vtk_image := current_vtk_image s;
     current_polydata := current_polydata s; current_display_mode := current_display_mode
     s; image_actor := image_actor s; window_level := window_level s; volume_mapper :=
     volume_mapper s; volume := volume s; color_func := v; opacity_func := opacity_func
     s; stl_mapper := stl_mapper s; stl_actor := stl_actor s |}.
Definition set_opacity_func v (s : VTKRenderer) : VTKRenderer :=
  {| render_window := render_window s; renderer := renderer s; interactor := interactor
     s; current_style := current_style s; current_vtk_image := current_vtk_image s;
     current_polydata := current_polydata s; current_display_mode := current_display_mode
     s; image_actor := image_actor s; window_level := window_level s; volume_mapper :=
     volume_mapper s; volume := volume s; color_func := color_func s; opacity_func := v;
     stl_mapper := stl_mapper s; stl_actor := stl_actor s |}.
Definition set_stl_mapper v (s : VTKRenderer) : VTKRenderer :=
  {| render_window := render_window s; renderer := renderer s; interactor := interactor
     s; current_style := current_style s; current_vtk_image := current_vtk_image s;
     current_polydata := current_polydata s; current_display_mode := current_display_mode
     s; image_actor := image_actor s; window_level := window_level s; volume_mapper :=
     volume_mapper s; volume := volume s; color_func := color_func s; opacity_func :=
     opacity_func s; stl_mapper := v; stl_actor := stl_actor s |}.
Definition set_stl_actor v (s : VTKRenderer) : VTKRenderer :=
  {| render_window := render_window s; renderer := renderer s; interactor := interactor
     s; current_style := current_style s; current_vtk_image := current_vtk_image s;
     current_polydata := current_polydata s; current_display_mode := current_display_mode
     s; image_actor := image_actor s; window_level := window_level s; volume_mapper :=
     volume_mapper s; volume := volume s; color_func := color_func s; opacity_func :=
     opacity_func s; stl_mapper := stl_mapper s; stl_actor := v |}.
End VR.

Module APP.
Record MedicalImageViewerApp := mk {
  current_image_type : option string;      (* "DICOM", "STL" *)
  current_file_path : option string;
  is_3d_view : bool
}.
Definition set_current_image_type v (s : MedicalImageViewerApp) : MedicalImageViewerApp :=
  {| current_image_type := v; current_file_path := current_file_path s; is_3d_view :=
     is_3d_view s |}.
Definition set_current_file_path v (s : MedicalImageViewerApp) : MedicalImageViewerApp :=
  {| current_image_type := current_image_type s; current_file_path := v; is_3d_view :=
     is_3d_view s |}.
Definition set_is_3d_view v (s : MedicalImageViewerApp) : MedicalImageViewerApp :=
  {| current_image_type := current_image_type s; current_file_path := current_file_path
     s; is_3d_view := v |}.
End APP.

(** ** What a call leaves behind outside the three objects *)

Inductive component := image_processor | vtk_renderer | application.

Inductive event :=
| log_user_action_call (action details : text)
| log_file_operation_call (operation : string) (filepath : string) (result : string)
| log_image_processing_call (operation : string) (image_info : text) (result : string)
| log_system_event_call (event : string) (details : text)
| log_error_call (error_type : string) (error_message : text) (stack_trace : option text)
| emitted (sender : component) (signal : string) (args : list text)
| rendered                                   (* render_window.Render() *)
| camera_reset.                              (* renderer.ResetCamera() *)

(** The world a call runs in.
    - The three [*_AVAILABLE] flags are the module constants set by the
      guarded imports of [image_processor.py] and [vtk_renderer.py].
    - [dicts] is the store of the [dict] objects; [IP.image_metadata] is a
      reference into it.
    - [trace] collects, in order, the calls made on the logger, the
      signals emitted and the renders. The components take their logger as
      a constructor argument; here a call on it is one entry of the trace
      and returns. The class [MedicalLogger] itself is the subject of
      Part I.
    - [oracle] tells for the coming calls into SimpleITK, VTK, Qt and the
      file system whether they raise: the head is consumed by each call,
      [Some e] makes it raise [e], and an empty oracle lets every call
      succeed. Reading a property of an object that is already in memory
      ([GetSize()], [GetScalarRange()], [GetNumberOfPoints()], ...) is
      not such a call. *)
Record world := mk_world {
  ip_SIMPLEITK_AVAILABLE : bool;
  ip_VTK_AVAILABLE : bool;
  vr_VTK_AVAILABLE : bool;
  proc : IP.ImageProcessor;
  rend : VR.VTKRenderer;
  app : APP.MedicalImageViewerApp;
  dicts : gmap positive (gmap string value);
  trace : list event;
  oracle : list (option exn)
}.

Definition with_ip_SIMPLEITK_AVAILABLE v (s : world) : world :=
  {| ip_SIMPLEITK_AVAILABLE := v; ip_VTK_AVAILABLE := ip_VTK_AVAILABLE s;
     vr_VTK_AVAILABLE := vr_VTK_AVAILABLE s; proc := proc s; rend := rend s; app := app
     s; dicts := dicts s; trace := trace s; oracle := oracle s |}.
Definition with_ip_VTK_AVAILABLE v (s : world) : world :=
  {| ip_SIMPLEITK_AVAILABLE := ip_SIMPLEITK_AVAILABLE s; ip_VTK_AVAILABLE := v;
     vr_VTK_AVAILABLE := vr_VTK_AVAILABLE s; proc := proc s; rend := rend s; app := app
     s; dicts := dicts s; trace := trace s; oracle := oracle s |}.
Definition with_vr_VTK_AVAILABLE v (s : world) : world :=
  {| ip_SIMPLEITK_AVAILABLE := ip_SIMPLEITK_AVAILABLE s; ip_VTK_AVAILABLE :=
     ip_VTK_AVAILABLE s; vr_VTK_AVAILABLE := v; proc := proc s; rend := rend s; app :=
     app s; dicts := dicts s; trace := trace s; oracle := oracle s |}.
Definition with_proc v (s : world) : world :=
  {| ip_SIMPLEITK_AVAILABLE := ip_SIMPLEITK_AVAILABLE s; ip_VTK_AVAILABLE :=
     ip_VTK_AVAILABLE s; vr_VTK_AVAILABLE := vr_VTK_AVAILABLE s; proc := v; rend := rend
     s; app := app s; dicts := dicts s; trace := trace s; oracle := oracle s |}.
Definition with_rend v (s : world) : world :=
  {| ip_SIMPLEITK_AVAILABLE := ip_SIMPLEITK_AVAILABLE s; ip_VTK_AVAILABLE :=
     ip_VTK_AVAILABLE s; vr_VTK_AVAILABLE := vr_VTK_AVAILABLE s; proc := proc s; rend :=
     v; app := app s; dicts := dicts s; trace := trace s; oracle := oracle s |}.
Definition with_app v (s : world) : world :=
  {| ip_SIMPLEITK_AVAILABLE := ip_SIMPLEITK_AVAILABLE s; ip_VTK_AVAILABLE :=
     ip_VTK_AVAILABLE s; vr_VTK_AVAILABLE := vr_VTK_AVAILABLE s; proc := proc s; rend :=
     rend s; app := v; dicts := dicts s; trace := trace s; oracle := oracle s |}.
Definition with_dicts v (s : world) : world :=
  {| ip_SIMPLEITK_AVAILABLE := ip_SIMPLEITK_AVAILABLE s; ip_VTK_AVAILABLE :=
     ip_VTK_AVAILABLE s; vr_VTK_AVAILABLE := vr_VTK_AVAILABLE s; proc := proc s; rend :=
     rend s; app := app s; dicts := v; trace := trace s; oracle := oracle s |}.
Definition with_trace v (s : world) : world :=
  {| ip_SIMPLEITK_AVAILABLE := ip_SIMPLEITK_AVAILABLE s; ip_VTK_AVAILABLE :=
     ip_VTK_AVAILABLE s; vr_VTK_AVAILABLE := vr_VTK_AVAILABLE s; proc := proc s; rend :=
     rend s; app := app s; dicts := dicts s; trace := v; oracle := oracle s |}.
Definition with_oracle v (s : world) : world :=
  {| ip_SIMPLEITK_AVAILABLE := ip_SIMPLEITK_AVAILABLE s; ip_VTK_AVAILABLE :=
     ip_VTK_AVAILABLE s; vr_VTK_AVAILABLE := vr_VTK_AVAILABLE s; proc := proc s; rend :=
     rend s; app := app s; dicts := dicts s; trace := trace s; oracle := v |}.

Definition on_proc (f : IP.ImageProcessor → IP.ImageProcessor) (w : world) : world :=
  with_proc (f (proc w)) w.
Definition on_rend (f : VR.VTKRenderer → VR.VTKRenderer) (w : world) : world :=
  with_rend (f (rend w)) w.
Definition on_app (f : APP.MedicalImageViewerApp → APP.MedicalImageViewerApp) (w : world) : world :=
  with_app (f (app w)) w.

(** ** Computations: state, exceptions, and the outside world *)

Inductive result (A : Type) :=
| Ok (a : A)
| Raise (e : exn).
Arguments Ok {A} a.
Arguments Raise {A} e.

Definition M (A : Type) : Type := world → result A * world.

#[global] Instance M_ret : MRet M := λ A a w, (Ok a, w).

#[global] Instance M_bind : MBind M := λ A B k m w,
  match m w with
  | (Ok a, w') => k a w'
  | (Raise e, w') => (Raise e, w')
  end.

Definition gets {A} (f : world → A) : M A := λ w, (Ok (f w), w).
Definition modify (f : world → world) : M unit := λ w, (Ok (), f w).
Definition raise {A} (e : exn) : M A := λ w, (Raise e, w).

(** [try: m  except Exception as e: h e] *)
Definition try_except {A} (m : M A) (h : exn → M A) : M A := λ w,
  match m w with
  | (Ok a, w') => (Ok a, w')
  | (Raise e, w') => h e w'
  end.

(** One call into a library: it raises when the oracle says so. *)
Definition lib : M unit := λ w,
  match oracle w with
  | [] => (Ok (), w)
  | None :: o => (Ok (), with_oracle o w)
  | Some e :: o => (Raise e, with_oracle o w)
  end.

(** A library call that answers [a]. *)
Definition ask {A} (a : A) : M A := lib;; mret a.

Definition note (ev : event) : M unit :=
  modify (λ w, with_trace (trace w ++ [ev]) w).

(** [d = {...}]: a new [dict] object. *)
Definition new_dict (d : gmap string value) : M positive := λ w,
  let l := fresh (dom (dicts w)) in
  (Ok l, with_dicts (<[l := d]> (dicts w)) w).

(** The signals that [_connect_signals] wires to slots of the
    application, which re-emit them. *)
Definition _on_image_loaded (image_type : string) (image_info : text) : M unit :=
  note (emitted application "imageLoaded" [[T image_type]; image_info]).

Definition _on_error_occurred (error_message : text) : M unit :=
  note (emitted application "errorOccurred" [error_message]).

Definition _on_rendering_complete (rendering_type : string) : M unit :=
  note (emitted application "statusUpdate" [[T rendering_type; T " rendering complete"]]).

(** ** [core/image_processor.py] *)

Definition ip_set (f : IP.ImageProcessor → IP.ImageProcessor) : M unit := modify (on_proc f).

Definition ip_errorOccurred (error_msg : text) : M unit :=
  note (emitted image_processor "errorOccurred" [error_msg]);;
  _on_error_occurred error_msg.

Definition ip_imageLoaded (image_type : string) (image_info : text) : M unit :=
  note (emitted image_processor "imageLoaded" [[T image_type]; image_info]);;
  _on_image_loaded image_type image_info.

Definition tuple_Z (l : list Z) : value := VTuple (VInt <$> l).
Definition tuple_float (l : list float) : value := VTuple (VFloat <$> l).

(** The dictionary [_extract_dicom_metadata] builds: the eight fixed keys,
    then [metadata[key] = image.GetMetaData(key)] for each key of the
    image, in order. *)
Definition dicom_metadata (image : sitk_image) (num_files : nat) : gmap string value :=
  foldl (λ m kv, <[kv.1 := VStr kv.2]> m)
    (<["num_files" := VInt (Z.of_nat num_files)]>
     (<["number_of_components" := VInt (img_components image)]>
      (<["pixel_type" := VStr (img_pixel_type image)]>
       (<["direction" := tuple_float (img_direction image)]>
        (<["origin" := tuple_float (img_origin image)]>
         (<["spacing" := tuple_float (img_spacing image)]>
          (<["size" := tuple_Z (img_size image)]>
           (<["image_type" := VStr "DICOM"]> ∅))))))))
    (img_meta image).

Definition _extract_dicom_metadata (image : sitk_image) (num_files : nat) : M unit :=
  try_except
    (metadata ← new_dict (dicom_metadata image num_files);
     ip_set (IP.set_image_metadata metadata))
    (λ e, note (log_error_call "METADATA_EXTRACTION"
                  (T "Failed to extract DICOM metadata: " :: exn_msg e) None)).

Definition stl_metadata (p : polydata) (filepath : string) (file_size : Z) : gmap string value :=
  <["file_size" := VInt file_size]>
  (<["bounds" := tuple_float (GetBounds p)]>
   (<["num_cells" := VInt (GetNumberOfCells p)]>
    (<["num_points" := VInt (GetNumberOfPoints p)]>
     (<["filepath" := VStr filepath]>
      (<["image_type" := VStr "STL"]> ∅))))).

Definition _extract_stl_metadata (f : stl_file) (p : polydata) (filepath : string) : M unit :=
  try_except
    (file_size ← ask (sf_size f);
     metadata ← new_dict (stl_metadata p filepath file_size);
     ip_set (IP.set_image_metadata metadata))
    (λ e, note (log_error_call "METADATA_EXTRACTION"
                  (T "Failed to extract STL metadata: " :: exn_msg e) None)).

Definition load_dicom_series (d : dicom_dir) (directory : string) : M (option sitk_image) :=
  available ← gets ip_SIMPLEITK_AVAILABLE;
  if negb available then
    let error_msg := [T "SimpleITK not available. Cannot load DICOM files."] in
    note (log_error_call "DICOM_LOAD" error_msg None);;
    ip_errorOccurred error_msg;;
    mret None
  else
    try_except
      (exists_ ← ask (dd_exists d);
       if negb exists_ then
         let error_msg := [T "Directory does not exist: "; T directory] in
         note (log_error_call "DICOM_LOAD" error_msg None);;
         ip_errorOccurred error_msg;;
         mret None
       else
         note (log_file_operation_call "DICOM_LOAD_START" directory "SUCCESS");;
         lib;;                                        (* sitk.ImageSeriesReader() *)
         series_ids ← ask (dd_series_ids d);
         match series_ids with
         | [] =>
           let error_msg := [T "No DICOM series found in directory: "; T directory] in
           note (log_error_call "DICOM_LOAD" error_msg None);;
           ip_errorOccurred error_msg;;
           mret None
         | series_id :: _ =>
           dicom_names ← ask (dd_file_names d series_id);
           match dicom_names with
           | [] =>
             let error_msg := [T "No DICOM files found for series: "; T series_id] in
             note (log_error_call "DICOM_LOAD" error_msg None);;
             ip_errorOccurred error_msg;;
             mret None
           | _ =>
             lib;;                                    (* SetFileNames(dicom_names) *)
             image ← ask (dd_image d dicom_names);    (* Execute() *)
             ip_set (IP.set_current_sitk_image (Some image));;
             _extract_dicom_metadata image (length dicom_names);;
             let image_info :=
               [T "Size: "; V (tuple_Z (img_size image));
                T ", Spacing: "; V (tuple_float (img_spacing image));
                T ", Files: "; V (VInt (Z.of_nat (length dicom_names)))] in
             note (log_file_operation_call "DICOM_LOAD_SUCCESS" directory "SUCCESS");;
             note (log_image_processing_call "DICOM_LOADED" image_info "SUCCESS");;
             ip_imageLoaded "DICOM" image_info;;
             mret (Some image)
           end
         end)
      (λ e,
         let error_msg := T "Failed to load DICOM series: " :: exn_msg e in
         note (log_error_call "DICOM_LOAD" error_msg (Some (format_exc e)));;
         ip_errorOccurred error_msg;;
         mret None).

Definition load_stl_file (f : stl_file) (filepath : string) : M (option polydata) :=
  available ← gets ip_VTK_AVAILABLE;
  if negb available then
    let error_msg := [T "VTK not available. Cannot load STL files."] in
    note (log_error_call "STL_LOAD" error_msg None);;
    ip_errorOccurred error_msg;;
    mret None
  else
    try_except
      (exists_ ← ask (sf_exists f);
       if negb exists_ then
         let error_msg := [T "STL file does not exist: "; T filepath] in
         note (log_error_call "STL_LOAD" error_msg None);;
         ip_errorOccurred error_msg;;
         mret None
       else
         note (log_file_operation_call "STL_LOAD_START" filepath "SUCCESS");;
         lib;;                                        (* vtk.vtkSTLReader() *)
         lib;;                                        (* reader.SetFileName(filepath) *)
         lib;;                                        (* reader.Update() *)
         polydata ← ask (sf_output f);                (* reader.GetOutput() *)
         if bool_decide (GetNumberOfPoints polydata = 0%Z) then
           let error_msg := [T "Invalid or empty STL file: "; T filepath] in
           note (log_error_call "STL_LOAD" error_msg None);;
           ip_errorOccurred error_msg;;
           mret None
         else
           ip_set (IP.set_current_polydata (Some polydata));;
           _extract_stl_metadata f polydata filepath;;
           let model_info :=
             [T "Points: "; V (VInt (GetNumberOfPoints polydata));
              T ", Cells: "; V (VInt (GetNumberOfCells polydata))] in
           note (log_file_operation_call "STL_LOAD_SUCCESS" filepath "SUCCESS");;
           note (log_image_processing_call "STL_LOADED" model_info "SUCCESS");;
           ip_imageLoaded "STL" model_info;;
           mret (Some polydata))
      (λ e,
         let error_msg := T "Failed to load STL file: " :: exn_msg e in
         note (log_error_call "STL_LOAD" error_msg (Some (format_exc e)));;
         ip_errorOccurred error_msg;;
         mret None).

Definition convert_sitk_to_vtk (image : sitk_image) : M (option vtk_image) :=
  vtk_ok ← gets ip_VTK_AVAILABLE;
  sitk_ok ← gets ip_SIMPLEITK_AVAILABLE;
  if negb vtk_ok || negb sitk_ok then
    let error_msg := [T "VTK or SimpleITK not available for conversion"] in
    note (log_error_call "IMAGE_CONVERSION" error_msg None);;
    ip_errorOccurred error_msg;;
    mret None
  else
    try_except
      (let size := img_size image in
       let spacing := img_spacing image in
       let origin := img_origin image in
       np_array ← ask (img_pixels image);             (* sitk.GetArrayFromImage *)
       lib;;                                          (* vtk.vtkImageData() *)
       lib;;                                          (* SetDimensions(size) *)
       lib;;                                          (* SetSpacing(spacing) *)
       lib;;                                          (* SetOrigin(origin) *)
       lib;;                                          (* numpy_to_vtk(np_array.ravel(), ...) *)
       lib;;                                          (* GetPointData().SetScalars(vtk_array) *)
       let vtk_image := mk_vtk_image size spacing origin np_array (img_range image) in
       ip_set (IP.set_current_vtk_image (Some vtk_image));;
       note (log_image_processing_call "SITK_TO_VTK_CONVERSION"
               [T "Converted SITK to VTK: "; V (tuple_Z size)] "SUCCESS");;
       mret (Some vtk_image))
      (λ e,
         let error_msg := T "Failed to convert SimpleITK to VTK: " :: exn_msg e in
         note (log_error_call "IMAGE_CONVERSION" error_msg (Some (format_exc e)));;
         ip_errorOccurred error_msg;;
         mret None).

(** [return self.image_metadata.copy()]: a new [dict] with the entries of
    the processor's one; the caller gets the reference to the new one. *)
Definition get_metadata : M positive :=
  l ← gets (λ w, IP.image_metadata (proc w));
  d ← gets (λ w, dicts w !! l);
  match d with
  | Some d => new_dict d
  | None => raise (AttributeError "copy")
  end.

(** The loop of [validate_dicom_integrity] over the series, and what
    follows it; [n] is [len(series_ids)]. *)
Fixpoint validate_each (d : dicom_dir) (n : nat) (ids : list string) : M (bool * text) :=
  match ids with
  | [] =>
    note (log_image_processing_call "DICOM_VALIDATION"
            [T "Validated "; V (VInt (Z.of_nat n)); T " series"] "SUCCESS");;
    mret (true, [T "DICOM series validation successful"])
  | series_id :: rest =>
    dicom_names ← ask (dd_file_names d series_id);
    match dicom_names with
    | [] => mret (false, [T "No files found for series "; T series_id])
    | _ => validate_each d n rest
    end
  end.

Definition validate_dicom_integrity (d : dicom_dir) (directory : string) : M (bool * text) :=
  try_except
    (available ← gets ip_SIMPLEITK_AVAILABLE;
     if negb available then mret (false, [T "SimpleITK not available for validation"])
     else
       lib;;                                          (* sitk.ImageSeriesReader() *)
       series_ids ← ask (dd_series_ids d);
       match series_ids with
       | [] => mret (false, [T "No DICOM series found"])
       | _ => validate_each d (length series_ids) series_ids
       end)
    (λ e,
       let error_msg := T "DICOM validation failed: " :: exn_msg e in
       note (log_error_call "DICOM_VALIDATION" error_msg None);;
       mret (false, error_msg)).

Definition clear_current_data : M unit :=
  ip_set (IP.set_current_sitk_image None);;
  ip_set (IP.set_current_vtk_image None);;
  ip_set (IP.set_current_polydata None);;
  metadata ← new_dict ∅;
  ip_set (IP.set_image_metadata metadata);;
  note (log_system_event_call "DATA_CLEARED" [T "Cleared current image data"]).

(** ** [core/vtk_renderer.py] *)

Definition vr_set (f : VR.VTKRenderer → VR.VTKRenderer) : M unit := modify (on_rend f).

(** Reading an attribute of the renderer. [VTKRenderer.__init__] returns
    before it creates any attribute when VTK could not be imported, and
    reading one then raises [AttributeError]. *)
Definition self_ {A} (name : string) (f : VR.VTKRenderer → A) : M A := λ w,
  if vr_VTK_AVAILABLE w then (Ok (f (rend w)), w)
  else (Raise (AttributeError name), w).

(** [self.attr.method(...)], the method changing the object by [f]: it
    raises [AttributeError] when the attribute holds [None]. *)
Definition invoke {X} (name : string) (get : VR.VTKRenderer → option X)
    (set : option X → VR.VTKRenderer → VR.VTKRenderer) (f : X → X) : M unit :=
  o ← self_ name get;
  match o with
  | None => raise (AttributeError name)
  | Some x => lib;; vr_set (set (Some (f x)))
  end.

(** [self.attr.method(...)] for a method that leaves the object as it is. *)
Definition touch {X} (name : string) (get : VR.VTKRenderer → option X) : M unit :=
  o ← self_ name get;
  match o with
  | None => raise (AttributeError name)
  | Some _ => lib
  end.

Definition on_the_renderer := invoke "renderer" VR.renderer VR.set_renderer.
Definition on_the_render_window := invoke "render_window" VR.render_window VR.set_render_window.
Definition on_the_interactor := invoke "interactor" VR.interactor VR.set_interactor.
Definition on_the_image_actor := invoke "image_actor" VR.image_actor VR.set_image_actor.
Definition on_the_window_level := invoke "window_level" VR.window_level VR.set_window_level.
Definition on_the_volume_mapper := invoke "volume_mapper" VR.volume_mapper VR.set_volume_mapper.
Definition on_the_volume := invoke "volume" VR.volume VR.set_volume.
Definition on_the_color_func := invoke "color_func" VR.color_func VR.set_color_func.
Definition on_the_opacity_func := invoke "opacity_func" VR.opacity_func VR.set_opacity_func.
Definition on_the_stl_mapper := invoke "stl_mapper" VR.stl_mapper VR.set_stl_mapper.
Definition on_the_stl_actor := invoke "stl_actor" VR.stl_actor VR.set_stl_actor.

Definition RemoveAllViewProps : M unit :=
  on_the_renderer (λ r, mk_vtkRenderer (background r) []).
Definition AddViewProp (p : view_prop) : M unit :=
  on_the_renderer (λ r, mk_vtkRenderer (background r) (view_props r ++ [p])).
Definition ResetCamera : M unit := touch "renderer" VR.renderer;; note camera_reset.
Definition Render : M unit := touch "render_window" VR.render_window;; note rendered.

Definition SetInteractorStyle : M unit :=
  style ← gets (λ w, VR.current_style (rend w));
  on_the_interactor (λ i, mk_vtkInteractor (int_qt_widget i) (int_render_window i) style).

Definition SetWindow (window : float) : M unit :=
  on_the_window_level
    (λ wl, mk_window_level (wl_input wl) (Some window) (wl_level wl) (wl_updated wl)).
Definition SetLevel (level : float) : M unit :=
  on_the_window_level
    (λ wl, mk_window_level (wl_input wl) (wl_window wl) (Some level) (wl_updated wl)).

Definition AddRGBPoint (x r g b : float) : M unit :=
  on_the_color_func (λ l, l ++ [(x, r, g, b)]).
Definition AddPoint (x a : float) : M unit :=
  on_the_opacity_func (λ l, l ++ [(x, a)]).

Definition vr_errorOccurred (error_msg : text) : M unit :=
  note (emitted vtk_renderer "errorOccurred" [error_msg]);;
  _on_error_occurred error_msg.

Definition vr_renderingComplete (rendering_type : string) : M unit :=
  note (emitted vtk_renderer "renderingComplete" [[T rendering_type]]);;
  _on_rendering_complete rendering_type.

Definition initialize_render_window (parent_widget : bool) : M bool :=
  available ← gets vr_VTK_AVAILABLE;
  if negb available then mret false
  else
    try_except
      (lib;; vr_set (VR.set_render_window (Some (mk_vtkRenderWindow false)));;
       lib;; vr_set (VR.set_renderer (Some (mk_vtkRenderer None [])));;
       on_the_renderer (λ r, mk_vtkRenderer (Some (0.1, 0.1, 0.1)%float) (view_props r));;
       on_the_render_window (λ _, mk_vtkRenderWindow true);;
       lib;; vr_set (VR.set_interactor (Some (mk_vtkInteractor parent_widget false None)));;
       on_the_interactor (λ i, mk_vtkInteractor (int_qt_widget i) true (int_style i));;
       lib;; vr_set (VR.set_current_style (Some vtkInteractorStyleImage));;
       SetInteractorStyle;;
       note (log_system_event_call "VTK_INIT_SUCCESS"
               [T "VTK render window initialized successfully"]);;
       mret true)
      (λ e,
         let error_msg := T "Failed to initialize VTK render window: " :: exn_msg e in
         note (log_error_call "VTK_INIT" error_msg (Some (format_exc e)));;
         vr_errorOccurred error_msg;;
         mret false).

Definition display_2d_image (vtk_image : vtk_image) (window level : option float) : M bool :=
  available ← gets vr_VTK_AVAILABLE;
  if negb available then mret false
  else
    r ← gets (λ w, VR.renderer (rend w));
    if negb (bool_decide (is_Some r)) then mret false
    else
      try_except
        (RemoveAllViewProps;;
         vr_set (VR.set_current_vtk_image (Some vtk_image));;
         vr_set (VR.set_current_display_mode (Some "2D"));;
         lib;; vr_set (VR.set_image_actor (Some (mk_image_actor false)));;
         lib;; vr_set (VR.set_window_level (Some (mk_window_level None None None false)));;
         on_the_window_level
           (λ wl, mk_window_level (Some vtk_image) (wl_window wl) (wl_level wl) (wl_updated wl));;
         let scalar_range := GetScalarRange vtk_image in
         let window :=
           match window with
           | None => (scalar_range.2 - scalar_range.1)%float
           | Some window => window
           end in
         let level :=
           match level with
           | None => ((scalar_range.2 + scalar_range.1) / 2)%float
           | Some level => level
           end in
         SetWindow window;;
         SetLevel level;;
         on_the_window_level
           (λ wl, mk_window_level (wl_input wl) (wl_window wl) (wl_level wl) true);;
         touch "image_actor" VR.image_actor;;           (* GetMapper() *)
         touch "window_level" VR.window_level;;         (* GetOutputPort() *)
         on_the_image_actor (λ _, mk_image_actor true);; (* SetInputConnection(...) *)
         AddViewProp prop_image_actor;;                 (* renderer.AddActor(image_actor) *)
         ResetCamera;;
         lib;; vr_set (VR.set_current_style (Some vtkInteractorStyleImage));;
         SetInteractorStyle;;
         Render;;
         note (log_image_processing_call "2D_DISPLAY"
                 [T "2D display - Window: "; V (VFloat window);
                  T ", Level: "; V (VFloat level)] "SUCCESS");;
         vr_renderingComplete "2D";;
         mret true)
        (λ e,
           let error_msg := T "Failed to display 2D image: " :: exn_msg e in
           note (log_error_call "2D_DISPLAY" error_msg (Some (format_exc e)));;
           vr_errorOccurred error_msg;;
           mret false).

(** The nodes [_setup_transfer_functions] adds for a preset on the scalar
    range [(min_val, max_val)]. *)
Definition _setup_transfer_functions (vtk_image : vtk_image) (preset : string) : M unit :=
  let scalar_range := GetScalarRange vtk_image in
  let min_val := scalar_range.1 in
  let max_val := scalar_range.2 in
  on_the_color_func (λ _, []);;                       (* RemoveAllPoints() *)
  on_the_opacity_func (λ _, []);;                     (* RemoveAllPoints() *)
  (if decide (preset = "ct_bone") then
     AddRGBPoint min_val 0.0 0.0 0.0;;
     AddRGBPoint (min_val + (max_val - min_val) * 0.2) 0.2 0.1 0.05;;
     AddRGBPoint (min_val + (max_val - min_val) * 0.5) 0.8 0.7 0.6;;
     AddRGBPoint max_val 1.0 1.0 1.0;;
     AddPoint min_val 0.0;;
     AddPoint (min_val + (max_val - min_val) * 0.1) 0.0;;
     AddPoint (min_val + (max_val - min_val) * 0.4) 0.5;;
     AddPoint max_val 1.0
   else if decide (preset = "ct_soft_tissue") then
     AddRGBPoint min_val 0.0 0.0 0.0;;
     AddRGBPoint (min_val + (max_val - min_val) * 0.3) 0.8 0.4 0.2;;
     AddRGBPoint (min_val + (max_val - min_val) * 0.7) 1.0 0.8 0.6;;
     AddRGBPoint max_val 1.0 1.0 1.0;;
     AddPoint min_val 0.0;;
     AddPoint (min_val + (max_val - min_val) * 0.2) 0.1;;
     AddPoint (min_val + (max_val - min_val) * 0.5) 0.4;;
     AddPoint max_val 0.8
   else
     AddRGBPoint min_val 0.0 0.0 0.0;;
     AddRGBPoint (min_val + (max_val - min_val) * 0.3) 0.5 0.2 0.1;;
     AddRGBPoint (min_val + (max_val - min_val) * 0.6) 1.0 0.7 0.6;;
     AddRGBPoint max_val 1.0 1.0 1.0;;
     AddPoint min_val 0.0;;
     AddPoint (min_val + (max_val - min_val) * 0.1) 0.0;;
     AddPoint (min_val + (max_val - min_val) * 0.3) 0.3;;
     AddPoint max_val 1.0)%float.

Definition display_3d_volume (vtk_image : vtk_image) (preset : string) : M bool :=
  available ← gets vr_VTK_AVAILABLE;
  if negb available then mret false
  else
    r ← gets (λ w, VR.renderer (rend w));
    if negb (bool_decide (is_Some r)) then mret false
    else
      try_except
        (RemoveAllViewProps;;
         vr_set (VR.set_current_vtk_image (Some vtk_image));;
         vr_set (VR.set_current_display_mode (Some "3D_VOLUME"));;
         lib;; vr_set (VR.set_volume_mapper (Some (mk_volume_mapper None)));;
         on_the_volume_mapper (λ _, mk_volume_mapper (Some vtk_image));;
         lib;; vr_set (VR.set_color_func (Some []));;
         lib;; vr_set (VR.set_opacity_func (Some []));;
         _setup_transfer_functions vtk_image preset;;
         lib;;                                        (* vtk.vtkVolumeProperty() *)
         lib;;                                        (* SetColor(color_func) *)
         lib;;                                        (* SetScalarOpacity(opacity_func) *)
         lib;;                                        (* ShadeOn() *)
         lib;;                                        (* SetInterpolationTypeToLinear() *)
         lib;;                                        (* SetAmbient(0.1) *)
         lib;;                                        (* SetDiffuse(0.7) *)
         lib;;                                        (* SetSpecular(0.2) *)
         let volume_property :=
           mk_volume_property true true true true
             (Some 0.1%float) (Some 0.7%float) (Some 0.2%float) in
         lib;; vr_set (VR.set_volume (Some (mk_volume false None)));;
         on_the_volume (λ v, mk_volume true (vol_property v));;
         on_the_volume (λ v, mk_volume (vol_mapper v) (Some volume_property));;
         AddViewProp prop_volume;;
         ResetCamera;;
         lib;; vr_set (VR.set_current_style (Some vtkInteractorStyleTrackballCamera));;
         SetInteractorStyle;;
         Render;;
         note (log_image_processing_call "3D_VOLUME_DISPLAY"
                 [T "3D volume rendering - Preset: "; T preset] "SUCCESS");;
         vr_renderingComplete "3D_VOLUME";;
         mret true)
        (λ e,
           let error_msg := T "Failed to display 3D volume: " :: exn_msg e in
           note (log_error_call "3D_VOLUME_DISPLAY" error_msg (Some (format_exc e)));;
           vr_errorOccurred error_msg;;
           mret false).

Definition default_stl_color : float * float * float := (0.8, 0.8, 0.9)%float.

Definition display_stl_model (polydata : polydata) (color : float * float * float) : M bool :=
  available ← gets vr_VTK_AVAILABLE;
  if negb available then mret false
  else
    r ← gets (λ w, VR.renderer (rend w));
    if negb (bool_decide (is_Some r)) then mret false
    else
      try_except
        (RemoveAllViewProps;;
         vr_set (VR.set_current_polydata (Some polydata));;
         vr_set (VR.set_current_display_mode (Some "STL"));;
         lib;; vr_set (VR.set_stl_mapper (Some (mk_stl_mapper None)));;
         on_the_stl_mapper (λ _, mk_stl_mapper (Some polydata));;
         lib;; vr_set (VR.set_stl_actor (Some (mk_stl_actor false None None None None None)));;
         on_the_stl_actor (λ a, mk_stl_actor true (sa_color a) (sa_specular a)
                                  (sa_specular_power a) (sa_diffuse a) (sa_ambient a));;
         touch "stl_actor" VR.stl_actor;;              (* GetProperty() *)
         on_the_stl_actor (λ a, mk_stl_actor (sa_mapper a) (Some color) (sa_specular a)
                                  (sa_specular_power a) (sa_diffuse a) (sa_ambient a));;
         on_the_stl_actor (λ a, mk_stl_actor (sa_mapper a) (sa_color a) (Some 0.5%float)
                                  (sa_specular_power a) (sa_diffuse a) (sa_ambient a));;
         on_the_stl_actor (λ a, mk_stl_actor (sa_mapper a) (sa_color a) (sa_specular a)
                                  (Some 20%float) (sa_diffuse a) (sa_ambient a));;
         on_the_stl_actor (λ a, mk_stl_actor (sa_mapper a) (sa_color a) (sa_specular a)
                                  (sa_specular_power a) (Some 0.8%float) (sa_ambient a));;
         on_the_stl_actor (λ a, mk_stl_actor (sa_mapper a) (sa_color a) (sa_specular a)
                                  (sa_specular_power a) (sa_diffuse a) (Some 0.2%float));;
         AddViewProp prop_stl_actor;;
         ResetCamera;;
         lib;; vr_set (VR.set_current_style (Some vtkInteractorStyleTrackballCamera));;
         SetInteractorStyle;;
         Render;;
         note (log_image_processing_call "STL_DISPLAY"
                 [T "STL model - Points: "; V (VInt (GetNumberOfPoints polydata));
                  T ", Color: ";
                  V (VTuple [VFloat color.1.1; VFloat color.1.2; VFloat color.2])] "SUCCESS");;
         vr_renderingComplete "STL";;
         mret true)
        (λ e,
           let error_msg := T "Failed to display STL model: " :: exn_msg e in
           note (log_error_call "STL_DISPLAY" error_msg (Some (format_exc e)));;
           vr_errorOccurred error_msg;;
           mret false).

Definition update_window_level (window level : float) : M bool :=
  wl ← self_ "window_level" VR.window_level;
  mode ← gets (λ w, VR.current_display_mode (rend w));
  if negb (bool_decide (is_Some wl)) || negb (bool_decide (mode = Some "2D")) then mret false
  else
    try_except
      (SetWindow window;;
       SetLevel level;;
       Render;;
       note (log_image_processing_call "WINDOW_LEVEL_UPDATE"
               [T "Window: "; V (VFloat window); T ", Level: "; V (VFloat level)] "SUCCESS");;
       mret true)
      (λ e,
         let error_msg := T "Failed to update window/level: " :: exn_msg e in
         note (log_error_call "WINDOW_LEVEL_UPDATE" error_msg None);;
         mret false).

Definition update_3d_transfer_function (preset : string) : M bool :=
  image ← self_ "current_vtk_image" VR.current_vtk_image;
  mode ← gets (λ w, VR.current_display_mode (rend w));
  match image with
  | Some image =>
    if negb (bool_decide (mode = Some "3D_VOLUME")) then mret false
    else
      try_except
        (_setup_transfer_functions image preset;;
         Render;;
         note (log_image_processing_call "TRANSFER_FUNCTION_UPDATE"
                 [T "Preset: "; T preset] "SUCCESS");;
         mret true)
        (λ e,
           let error_msg := T "Failed to update transfer function: " :: exn_msg e in
           note (log_error_call "TRANSFER_FUNCTION_UPDATE" error_msg None);;
           mret false)
  | None => mret false
  end.

Definition reset_camera : M unit :=
  r ← self_ "renderer" VR.renderer;
  if bool_decide (is_Some r) then ResetCamera;; Render else mret ().

Definition clear_display : M unit :=
  r ← self_ "renderer" VR.renderer;
  (if bool_decide (is_Some r) then RemoveAllViewProps;; Render else mret ());;
  vr_set (VR.set_current_vtk_image None);;
  vr_set (VR.set_current_polydata None);;
  vr_set (VR.set_current_display_mode None);;
  note (log_system_event_call "DISPLAY_CLEARED" [T "Cleared VTK display"]).

(** ** [main_application.py] *)

Definition app_set (f : APP.MedicalImageViewerApp → APP.MedicalImageViewerApp) : M unit :=
  modify (on_app f).

Definition errorOccurred (message : text) : M unit :=
  note (emitted application "errorOccurred" [message]).

Definition statusUpdate (message : text) : M unit :=
  note (emitted application "statusUpdate" [message]).

(** [loadDicomSeries(directory_url)]; [directory] is what
    [QUrl(directory_url).toLocalFile()] answers and [d] what the disk
    holds there. *)
Definition loadDicomSeries (directory : string) (d : dicom_dir) : M unit :=
  try_except
    (directory ← ask directory;
     if negb (truthy_str directory) then errorOccurred [T "Invalid directory path"]
     else
       note (log_user_action_call [T "LOAD_DICOM_SERIES"] [T "Loading from: "; T directory]);;
       statusUpdate [T "Loading DICOM series..."];;
       validation ← validate_dicom_integrity d directory;
       if negb validation.1 then
         errorOccurred (T "DICOM validation failed: " :: validation.2)
       else
         sitk_image ← load_dicom_series d directory;
         match sitk_image with
         | Some sitk_image =>
           vtk_image ← convert_sitk_to_vtk sitk_image;
           match vtk_image with
           | Some vtk_image =>
             success ← display_2d_image vtk_image None None;
             if success : bool then
               app_set (APP.set_current_image_type (Some "DICOM"));;
               app_set (APP.set_current_file_path (Some directory));;
               app_set (APP.set_is_3d_view false);;
               statusUpdate [T "DICOM series loaded successfully"]
             else errorOccurred [T "Failed to display DICOM image"]
           | None => errorOccurred [T "Failed to convert DICOM to display format"]
           end
         | None => errorOccurred [T "Failed to load DICOM series"]
         end)
    (λ e,
       let error_msg := T "Unexpected error loading DICOM: " :: exn_msg e in
       note (log_error_call "DICOM_LOAD_UNEXPECTED" error_msg None);;
       errorOccurred error_msg).

Definition loadStlFile (filepath : string) (f : stl_file) : M unit :=
  try_except
    (filepath ← ask filepath;
     if negb (truthy_str filepath) then errorOccurred [T "Invalid file path"]
     else
       note (log_user_action_call [T "LOAD_STL_FILE"] [T "Loading: "; T filepath]);;
       statusUpdate [T "Loading STL file..."];;
       polydata ← load_stl_file f filepath;
       match polydata with
       | Some polydata =>
         success ← display_stl_model polydata default_stl_color;
         if success : bool then
           app_set (APP.set_current_image_type (Some "STL"));;
           app_set (APP.set_current_file_path (Some filepath));;
           app_set (APP.set_is_3d_view true);;
           statusUpdate [T "STL file loaded successfully"]
         else errorOccurred [T "Failed to display STL model"]
       | None => errorOccurred [T "Failed to load STL file"]
       end)
    (λ e,
       let error_msg := T "Unexpected error loading STL: " :: exn_msg e in
       note (log_error_call "STL_LOAD_UNEXPECTED" error_msg None);;
       errorOccurred error_msg).

Definition switchTo2DView : M unit :=
  type ← gets (λ w, APP.current_image_type (app w));
  if negb (bool_decide (type = Some "DICOM")) then
    errorOccurred [T "2D view only available for DICOM images"]
  else
    try_except
      (note (log_user_action_call [T "SWITCH_2D_VIEW"] [T "User switched to 2D view"]);;
       vtk_image ← gets (λ w, IP.current_vtk_image (proc w));
       match vtk_image with
       | Some vtk_image =>
         success ← display_2d_image vtk_image None None;
         if success : bool then
           app_set (APP.set_is_3d_view false);;
           statusUpdate [T "Switched to 2D view"]
         else errorOccurred [T "Failed to switch to 2D view"]
       | None => errorOccurred [T "No image data available for 2D view"]
       end)
      (λ e,
         let error_msg := T "Error switching to 2D view: " :: exn_msg e in
         note (log_error_call "VIEW_SWITCH_2D" error_msg None);;
         errorOccurred error_msg).

Definition switchTo3DView : M unit :=
  type ← gets (λ w, APP.current_image_type (app w));
  if negb (bool_decide (type = Some "DICOM")) then
    errorOccurred [T "3D view only available for DICOM images"]
  else
    try_except
      (note (log_user_action_call [T "SWITCH_3D_VIEW"] [T "User switched to 3D view"]);;
       vtk_image ← gets (λ w, IP.current_vtk_image (proc w));
       match vtk_image with
       | Some vtk_image =>
         success ← display_3d_volume vtk_image "default";
         if success : bool then
           app_set (APP.set_is_3d_view true);;
           statusUpdate [T "Switched to 3D view"]
         else errorOccurred [T "Failed to switch to 3D view"]
       | None => errorOccurred [T "No image data available for 3D view"]
       end)
      (λ e,
         let error_msg := T "Error switching to 3D view: " :: exn_msg e in
         note (log_error_call "VIEW_SWITCH_3D" error_msg None);;
         errorOccurred error_msg).

Definition updateWindowLevel (window level : float) : M unit :=
  type ← gets (λ w, APP.current_image_type (app w));
  is_3d ← gets (λ w, APP.is_3d_view (app w));
  if negb (bool_decide (type = Some "DICOM")) || is_3d then mret ()
  else
    try_except
      (note (log_user_action_call [T "WINDOW_LEVEL_ADJUST"]
               [T "Window: "; V (VFloat window); T ", Level: "; V (VFloat level)]);;
       success ← update_window_level window level;
       if success : bool then mret ()
       else errorOccurred [T "Failed to update window/level"])
      (λ e,
         let error_msg := T "Error updating window/level: " :: exn_msg e in
         note (log_error_call "WINDOW_LEVEL_UPDATE" error_msg None);;
         errorOccurred error_msg).

Definition update3DPreset (preset : string) : M unit :=
  type ← gets (λ w, APP.current_image_type (app w));
  is_3d ← gets (λ w, APP.is_3d_view (app w));
  if negb (bool_decide (type = Some "DICOM")) || negb is_3d then mret ()
  else
    try_except
      (note (log_user_action_call [T "3D_PRESET_CHANGE"] [T "Preset: "; T preset]);;
       success ← update_3d_transfer_function preset;
       if success : bool then statusUpdate [T "Applied 3D preset: "; T preset]
       else errorOccurred [T "Failed to update 3D preset"])
      (λ e,
         let error_msg := T "Error updating 3D preset: " :: exn_msg e in
         note (log_error_call "3D_PRESET_UPDATE" error_msg None);;
         errorOccurred error_msg).

Definition resetCamera : M unit :=
  try_except
    (note (log_user_action_call [T "RESET_CAMERA"] [T "User reset camera view"]);;
     reset_camera;;
     statusUpdate [T "Camera view reset"])
    (λ e,
       let error_msg := T "Error resetting camera: " :: exn_msg e in
       note (log_error_call "CAMERA_RESET" error_msg None);;
       errorOccurred error_msg).

Definition clearDisplay : M unit :=
  try_except
    (note (log_user_action_call [T "CLEAR_DISPLAY"] [T "User cleared display"]);;
     clear_display;;
     clear_current_data;;
     app_set (APP.set_current_image_type None);;
     app_set (APP.set_current_file_path None);;
     app_set (APP.set_is_3d_view false);;
     statusUpdate [T "Display cleared"])
    (λ e,
       let error_msg := T "Error clearing display: " :: exn_msg e in
       note (log_error_call "CLEAR_DISPLAY" error_msg None);;
       errorOccurred error_msg).

(** ** The application as a machine *)

(** The constructors: [MedicalImageViewerApp.__init__] builds the
    processor and the renderer, every attribute [None] and the metadata an
    empty [dict]. *)
Definition startup (sitk vtk_ip vtk_vr : bool) : world :=
  {| ip_SIMPLEITK_AVAILABLE := sitk;
     ip_VTK_AVAILABLE := vtk_ip;
     vr_VTK_AVAILABLE := vtk_vr;
     proc := IP.mk None None None 1%positive;
     rend := VR.mk None None None None None None None None None None None None None None None;
     app := APP.mk None None false;
     dicts := {[ 1%positive := ∅ ]};
     trace :=
       [log_system_event_call "IMAGE_PROCESSOR_INIT" [T "Image processor initialized"];
        if vtk_vr
        then log_system_event_call "VTK_RENDERER_INIT" [T "VTK renderer initialized"]
        else log_error_call "VTK_INIT" [T "VTK not available"] None;
        log_system_event_call "APPLICATION_START" [T "Medical Image Viewer started"];
        log_user_action_call [T "APPLICATION_LAUNCH"] [T "User launched the application"]];
     oracle := [] |}.

(** What the presentation layer can ask for. Each request comes with the
    part of the outside world it meets. *)
Inductive request :=
| initialize_vtk_widget (parent_widget : bool)
| load_series (directory : string) (d : dicom_dir)
| load_mesh (filepath : string) (f : stl_file)
| switch_2d
| switch_3d
| set_window_level (window level : float)
| set_preset (preset : string)
| reset_camera_view
| clear.

Definition serve (r : request) : M unit :=
  match r with
  | initialize_vtk_widget parent_widget => initialize_render_window parent_widget;; mret ()
  | load_series directory d => loadDicomSeries directory d
  | load_mesh filepath f => loadStlFile filepath f
  | switch_2d => switchTo2DView
  | switch_3d => switchTo3DView
  | set_window_level window level => updateWindowLevel window level
  | set_preset preset => update3DPreset preset
  | reset_camera_view => resetCamera
  | clear => clearDisplay
  end.

(** One request under the library behaviour [o]. *)
Definition step (w : world) (ro : request * list (option exn)) : world :=
  (serve ro.1 (with_oracle ro.2 w)).2.

Definition run (w : world) (rs : list (request * list (option exn))) : world :=
  foldl step w rs.

(** The state the specification speaks of. *)
Definition loaded_volume (w : world) : option sitk_image := IP.current_sitk_image (proc w).
Definition loaded_mesh (w : world) : option polydata := IP.current_polydata (proc w).
Definition display_mode (w : world) : option string := VR.current_display_mode (rend w).
Definition metadata_map (w : world) : option (gmap string value) :=
  dicts w !! IP.image_metadata (proc w).

(** ** Notions the statements are written with *)

(** [wp m w Q]: running [m] in [w] ends in a result and a world that
    satisfy [Q]. Every computation of this development is a total
    function, so there is always such a result. *)
Definition wp {A} (m : M A) (w : world) (Q : result A → world → Prop) : Prop :=
  Q (m w).1 (m w).2.

(** The module constants never change. *)
Definition same_flags (w w' : world) : Prop :=
  ip_SIMPLEITK_AVAILABLE w' = ip_SIMPLEITK_AVAILABLE w ∧
  ip_VTK_AVAILABLE w' = ip_VTK_AVAILABLE w ∧
  vr_VTK_AVAILABLE w' = vr_VTK_AVAILABLE w.

(** The three objects and the store of dictionaries are as they were;
    only the trace and the oracle may have moved on. *)
Definition unchanged (w w' : world) : Prop :=
  proc w' = proc w ∧ rend w' = rend w ∧ app w' = app w ∧ dicts w' = dicts w.

(** Only the renderer may have changed. *)
Definition renderer_only (w w' : world) : Prop :=
  same_flags w w' ∧ proc w' = proc w ∧ app w' = app w ∧ dicts w' = dicts w.

(** The loader's report of a failure: the error is logged and the
    processor's [errorOccurred] is emitted, which the application forwards. *)
Definition reports_failure (w w' : world) : Prop :=
  ∃ pre error_type msg stack,
    trace w' = trace w ++ pre ++
      [log_error_call error_type msg stack;
       emitted image_processor "errorOccurred" [msg];
       emitted application "errorOccurred" [msg]].

(** The call ended by telling the presentation layer of an error. *)
Definition ui_error (w w' : world) : Prop :=
  ∃ pre msg, trace w' = trace w ++ pre ++ [emitted application "errorOccurred" [msg]].

(** No library call of the coming ones raises. *)
Definition calm (o : list (option exn)) : Prop := Forall (λ x, x = None) o.

Definition is_error (ev : event) : bool :=
  match ev with
  | log_error_call _ _ _ => true
  | emitted _ signal _ => bool_decide (signal = "errorOccurred")
  | _ => false
  end.

(** The level the [if]/[elif] chain of [log_event] selects for a severity. *)
Definition severity_level (severity : string) : option nat :=
  if decide (upper severity = "INFO") then Some INFO
  else if decide (upper severity = "WARNING") then Some WARNING
  else if decide (upper severity = "ERROR") then Some ERROR
  else if decide (upper severity = "CRITICAL") then Some CRITICAL
  else None.

(** A logger as [_setup_loggers] leaves it: names, levels and formatters. *)
Definition configured (s : MedicalLogger) : Prop :=
  lg_name (event_logger s) = "medical_events" ∧ lg_level (event_logger s) = INFO ∧
  lg_formatter (event_logger s) = detailed_formatter ∧
  lg_name (error_logger s) = "medical_errors" ∧ lg_level (error_logger s) = ERROR ∧
  lg_formatter (error_logger s) = detailed_formatter ∧
  lg_name (audit_logger s) = "medical_audit" ∧ lg_level (audit_logger s) = INFO ∧
  lg_formatter (audit_logger s) = audit_formatter.

(** The windowing transform [show2D] is specified to apply. *)
Definition applied_window_level (vtk_image : vtk_image) (window level : option float) :
    vtkImageMapToWindowLevelColors :=
  let scalar_range := GetScalarRange vtk_image in
  {| wl_input := Some vtk_image;
     wl_window := Some (match window with
                        | None => scalar_range.2 - scalar_range.1
                        | Some window => window
                        end)%float;
     wl_level := Some (match level with
                       | None => (scalar_range.2 + scalar_range.1) / 2
                       | Some level => level
                       end)%float;
     wl_updated := true |}.

(** The documented presets: colour nodes and opacity nodes on the scalar
    range [(min_val, max_val)]. *)
Definition default_preset (min_val max_val : float) : list rgb_point * list opacity_point :=
  ([(min_val, 0.0, 0.0, 0.0);
    (min_val + (max_val - min_val) * 0.3, 0.5, 0.2, 0.1);
    (min_val + (max_val - min_val) * 0.6, 1.0, 0.7, 0.6);
    (max_val, 1.0, 1.0, 1.0)],
   [(min_val, 0.0);
    (min_val + (max_val - min_val) * 0.1, 0.0);
    (min_val + (max_val - min_val) * 0.3, 0.3);
    (max_val, 1.0)])%float.

Definition ct_bone_preset (min_val max_val : float) : list rgb_point * list opacity_point :=
  ([(min_val, 0.0, 0.0, 0.0);
    (min_val + (max_val - min_val) * 0.2, 0.2, 0.1, 0.05);
    (min_val + (max_val - min_val) * 0.5, 0.8, 0.7, 0.6);
    (max_val, 1.0, 1.0, 1.0)],
   [(min_val, 0.0);
    (min_val + (max_val - min_val) * 0.1, 0.0);
    (min_val + (max_val - min_val) * 0.4, 0.5);
    (max_val, 1.0)])%float.

Definition ct_soft_tissue_preset (min_val max_val : float) : list rgb_point * list opacity_point :=
  ([(min_val, 0.0, 0.0, 0.0);
    (min_val + (max_val - min_val) * 0.3, 0.8, 0.4, 0.2);
    (min_val + (max_val - min_val) * 0.7, 1.0, 0.8, 0.6);
    (max_val, 1.0, 1.0, 1.0)],
   [(min_val, 0.0);
    (min_val + (max_val - min_val) * 0.2, 0.1);
    (min_val + (max_val - min_val) * 0.5, 0.4);
    (max_val, 0.8)])%float.

Definition documented_preset (name : string) :
    option (float → float → list rgb_point * list opacity_point) :=
  if decide (name = "default") then Some default_preset
  else if decide (name = "ct_bone") then Some ct_bone_preset
  else if decide (name = "ct_soft_tissue") then Some ct_soft_tissue_preset
  else None.

(** What [_setup_transfer_functions] selects for a name: the two names
    it tests for, and the default nodes for every other name. *)
Definition installed_preset (name : string) :
    float → float → list rgb_point * list opacity_point :=
  if decide (name = "ct_bone") then ct_bone_preset
  else if decide (name = "ct_soft_tissue") then ct_soft_tissue_preset
  else default_preset.

(** The transfer functions the renderer holds. *)
Definition transfer_functions (w : world) : option (list rgb_point * list opacity_point) :=
  match VR.color_func (rend w), VR.opacity_func (rend w) with
  | Some c, Some o => Some (c, o)
  | _, _ => None
  end.

(** The renderer shows a volume: what a successful [display_3d_volume]
    leaves. *)
Definition showing_volume (w : world) (vtk_image : vtk_image) : Prop :=
  vr_VTK_AVAILABLE w = true ∧
  VR.current_vtk_image (rend w) = Some vtk_image ∧
  display_mode w = Some "3D_VOLUME" ∧
  is_Some (VR.color_func (rend w)) ∧
  is_Some (VR.opacity_func (rend w)) ∧
  is_Some (VR.render_window (rend w)).

(** Display Mode and resident data agree. *)
Definition mode_matches_data (w : world) : Prop :=
  (display_mode w = Some "2D" ∨ display_mode w = Some "3D_VOLUME" → is_Some (loaded_volume w)) ∧
  (display_mode w = Some "STL" → is_Some (loaded_mesh w)).

(** A renderer that has a scene also has the window it is drawn in. *)
Definition window_ready (w : world) : Prop :=
  is_Some (VR.renderer (rend w)) → is_Some (VR.render_window (rend w)).

(** What holds of every state the application reaches: mode and data
    agree, a converted image comes with the volume it was converted from,
    and the renderer has its window. *)
Definition consistent (w : world) : Prop :=
  mode_matches_data w ∧
  (is_Some (IP.current_vtk_image (proc w)) → is_Some (loaded_volume w)) ∧
  window_ready w.

(** The renderer after [clear_display]: the scene emptied, the three
    attributes of the display state [None]. *)
Definition cleared (r : VR.VTKRenderer) : VR.VTKRenderer :=
  VR.set_current_display_mode None
    (VR.set_current_polydata None
       (VR.set_current_vtk_image None
          (VR.set_renderer ((λ x, mk_vtkRenderer (background x) []) <$> VR.renderer r) r))).

(** What one sees of the state when the identity of the metadata
    dictionary is left aside: its entries, not its address. *)
Definition snapshot (w : world) :=
  (loaded_volume w, IP.current_vtk_image (proc w), loaded_mesh w, metadata_map w,
   rend w, app w).

(** The events a call added to the trace. *)
Definition new_events (w w' : world) : list event := drop (length (trace w)) (trace w').

(** ** Sample data and sample states *)

Definition demo_image : sitk_image :=
  mk_sitk_image [2; 2; 1]%Z [1; 1; 1]%float [0; 0; 0]%float
    [1; 0; 0; 0; 1; 0; 0; 0; 1]%float "16-bit signed integer" 1 []
    [-1000; 10; 200; 3000]%float (-1000, 3000)%float.

Definition demo_dir : dicom_dir :=
  mk_dicom_dir true ["1.2.840.1"] (λ _, ["slice1.dcm"; "slice2.dcm"]) (λ _, demo_image).

Definition demo_vtk_image : vtk_image :=
  mk_vtk_image [2; 2; 1]%Z [1; 1; 1]%float [0; 0; 0]%float
    [-1000; 10; 200; 3000]%float (-1000, 3000)%float.

Definition demo_mesh : polydata := mk_polydata 3 1 [0; 1; 0; 1; 0; 0]%float.

Definition demo_stl : stl_file := mk_stl_file true demo_mesh 134.

(** The application after start-up with the render window initialised. *)
Definition ready : world :=
  run (startup true true true) [(initialize_vtk_widget false, [])].

Definition showing : world := (display_3d_volume demo_vtk_image "ct_bone" ready).2.

Definition showing_mesh : world := run ready [(load_mesh "/data/bone.stl" demo_stl, [])].
Definition showing_slice : world := run ready [(load_series "/data/ct" demo_dir, [])].

Definition empty_dir : dicom_dir := mk_dicom_dir true [] (λ _, []) (λ _, demo_image).

(** The library behaviour in which reading the size of the mesh file is
    the one call that raises: the seventh call of a mesh load. *)
Definition stat_raises : list (option exn) :=
  [None; None; None; None; None; None; Some (mk_exn [T "[Errno 2] No such file or directory"])].

(** * Part II, continued. The code beside the contract *)

(** ** [core/medical_logger.py]: reading and purging the log files *)

(** What [get_recent_events] finds at [log_dir / "medical_events.log"]. *)
Inductive event_log_file :=
| no_event_log                              (* event_log_path.exists() is False *)
| event_log_unreadable (e : string)         (* open() or readlines() raises *)
| event_log_lines (lines : list string).    (* f.readlines() *)

(** The slice [l[start:]] of Python: a negative [start] counts from the
    end, and an index outside the list is clipped to it. *)
Definition slice_from {A} (start : Z) (l : list A) : list A :=
  let n := Z.of_nat (length l) in
  let i := if (start <? 0)%Z then Z.max 0 (start + n) else Z.min start n in
  drop (Z.to_nat i) l.

Definition get_recent_events (file : event_log_file) (count : Z) : L (list string) :=
  match file with
  | no_event_log => Logger.ret []
  | event_log_lines lines =>
    Logger.ret (if (count <? Z.of_nat (length lines))%Z then slice_from (- count) lines
                else lines)
  | event_log_unreadable e =>
    Logger.bind (log_error "LOG_READ" ("Failed to read recent events: " +:+ e) None)
                (λ _, Logger.ret [])
  end.

(** A file that [log_dir.glob("*.log*")] yields. A time is a naive local
    [datetime], counted in microseconds. *)
Record log_file := mk_log_file {
  lf_path : string;
  lf_stat : string + Z;        (* stat() raises, or fromtimestamp(stat().st_mtime) *)
  lf_unlink : option string    (* unlink() raises *)
}.

(** The loop of [cleanup_old_logs]. Beside the way the call ends it
    answers the paths it has unlinked, oldest first. *)
Fixpoint cleanup_each (cutoff_date : Z) (files : list log_file) (unlinked : list string)
    (s : MedicalLogger) : outcome unit * list string :=
  match files with
  | [] => (Returned () s, unlinked)
  | log_file :: rest =>
    let logged (unlinked : list string) (out : outcome unit) :=
      match out with
      | Returned _ s' => cleanup_each cutoff_date rest unlinked s'
      | Blocked s' => (Blocked s', unlinked)
      end in
    let failed (e : string) :=
      logged unlinked
        (log_error "LOG_CLEANUP"
           ("Failed to remove old log file " +:+ lf_path log_file +:+ ": " +:+ e) None s) in
    match lf_stat log_file with
    | inl e => failed e
    | inr file_time =>
      if (file_time <? cutoff_date)%Z then
        match lf_unlink log_file with
        | Some e => failed e
        | None =>
          logged (unlinked ++ [lf_path log_file])
            (log_system_event "LOG_CLEANUP"
               ("Removed old log file: " +:+ lf_path log_file) s)
        end
      else cleanup_each cutoff_date rest unlinked s
    end
  end.

(** [cleanup_old_logs(days_to_keep)] at the time [now], for a horizon that
    [timedelta] and [datetime] can represent. *)
Definition cleanup_old_logs (now days_to_keep : Z) (files : list log_file)
    (s : MedicalLogger) : outcome unit * list string :=
  let cutoff_date := (now - days_to_keep * 86400000000)%Z in
  cleanup_each cutoff_date files [] s.

(** A file the purge has to act on: its time cannot be read, or it is
    older than the horizon. *)
Definition needs_purge (cutoff_date : Z) (f : log_file) : bool :=
  match lf_stat f with
  | inl _ => true
  | inr file_time => (file_time <? cutoff_date)%Z
  end.

(** A wrapper left the logger [s'] blocked, coming from [s]: the lock is
    held, and the audit and error streams have gained the given lines. *)
Definition left_blocked (s s' : MedicalLogger) (audit error : list string) : Prop :=
  _lock s' = true ∧
  audit_stream s' = audit_stream s ++ audit ∧
  error_stream s' = error_stream s ++ error ∧
  event_stream s' = event_stream s.

(** ** [core/image_processor.py]: statistics *)

(** What [sitk.StatisticsImageFilter] answers for the resident image. *)
Record statistics := mk_statistics {
  st_mean : float;             (* GetMean() *)
  st_std : float;              (* GetSigma() *)
  st_min : float;              (* GetMinimum() *)
  st_max : float;              (* GetMaximum() *)
  st_sum : float;              (* GetSum() *)
  st_count : Z                 (* GetCount() *)
}.

(** The entries [stats.update({...})] puts into the new dictionary, in
    the order of the literal. *)
Definition statistics_items (st : statistics) : list (string * value) :=
  [("mean", VFloat (st_mean st)); ("std", VFloat (st_std st));
   ("min", VFloat (st_min st)); ("max", VFloat (st_max st));
   ("sum", VFloat (st_sum st)); ("count", VInt (st_count st))].

(** [f"{stats}"] for a dictionary with string keys. *)
Fixpoint dict_items_repr (items : list (string * value)) : text :=
  match items with
  | [] => []
  | [(k, v)] => [T "'"; T k; T "': "; V v]
  | (k, v) :: rest => T "'" :: T k :: T "': " :: V v :: T ", " :: dict_items_repr rest
  end.

Definition dict_repr (items : list (string * value)) : text :=
  T "{" :: dict_items_repr items ++ [T "}"].

(** [get_image_statistics]: the dictionary it returns is a new one that
    nothing else refers to; it is given by its items, in order. *)
Definition get_image_statistics (st : statistics) : M (list (string * value)) :=
  image ← gets (λ w, IP.current_sitk_image (proc w));
  match image with
  | Some _ =>
    try_except
      (lib;;                                          (* sitk.StatisticsImageFilter() *)
       lib;;                                          (* stats_filter.Execute(image) *)
       lib;; lib;; lib;; lib;; lib;; lib;;            (* GetMean() ... GetCount() *)
       let stats := statistics_items st in
       note (log_image_processing_call "IMAGE_STATISTICS"
               (T "Calculated statistics: " :: dict_repr stats) "SUCCESS");;
       mret stats)
      (λ e,
         let error_msg := T "Failed to calculate image statistics: " :: exn_msg e in
         note (log_error_call "IMAGE_STATISTICS" error_msg None);;
         mret [])
  | None => mret []
  end.

(** The dictionary the fixed keys of [_extract_dicom_metadata] make, before
    the keys of the image are added. *)
Definition fixed_dicom_entries (image : sitk_image) (num_files : nat) : gmap string value :=
  <["num_files" := VInt (Z.of_nat num_files)]>
  (<["number_of_components" := VInt (img_components image)]>
   (<["pixel_type" := VStr (img_pixel_type image)]>
    (<["direction" := tuple_float (img_direction image)]>
     (<["origin" := tuple_float (img_origin image)]>
      (<["spacing" := tuple_float (img_spacing image)]>
       (<["size" := tuple_Z (img_size image)]>
        (<["image_type" := VStr "DICOM"]> ∅))))))).

(** The value the image's own metadata gives for a key: that of the last
    entry with the key. *)
Definition own_entry (image : sitk_image) (key : string) : option string :=
  snd <$> find (λ kv, bool_decide (kv.1 = key)) (reverse (img_meta image)).

(** The first series of a directory that has no files. *)
Definition first_empty_series (d : dicom_dir) : option string :=
  find (λ series_id, bool_decide (dd_file_names d series_id = [])) (dd_series_ids d).

(** Events none of which tells of an error. *)
Definition no_errors (evs : list event) : Prop :=
  forallb (λ ev, negb (is_error ev)) evs = true.

(** From [w] to [w'] the trace has gained events, none of an error. *)
Definition quietly (w w' : world) : Prop :=
  ∃ evs, trace w' = trace w ++ evs ∧ no_errors evs.

(** A directory with two series, the second of which has no files. *)
Definition incomplete_dir : dicom_dir :=
  mk_dicom_dir true ["1.2.840.1"; "1.2.840.2"]
    (λ series_id, if decide (series_id = "1.2.840.1") then ["slice1.dcm"] else [])
    (λ _, demo_image).

(** An image that carries a tag named like a fixed key. *)
Definition tagged_image : sitk_image :=
  mk_sitk_image [2; 2; 1]%Z [1; 1; 1]%float [0; 0; 0]%float [] "16-bit signed integer" 1
    [("0008|0060", "CT"); ("size", "unknown")] [] (0, 0)%float.

(** ** What the renderer shows *)

(** The props in the scene; there is none before the renderer exists. *)
Definition scene (w : world) : list view_prop :=
  from_option view_props [] (VR.renderer (rend w)).

(** The style the interactor has been given. *)
Definition interaction_style (w : world) : option interactor_style :=
  VR.interactor (rend w) ≫= int_style.

(** [initialize_render_window] has succeeded: VTK is there, and the
    renderer has its scene, its window and its interactor. *)
Definition initialised (w : world) : Prop :=
  vr_VTK_AVAILABLE w = true ∧ is_Some (VR.renderer (rend w)) ∧
  is_Some (VR.render_window (rend w)) ∧ is_Some (VR.interactor (rend w)).

(** The prop that belongs to a Display Mode. *)
Definition prop_of_mode (mode : option string) : list view_prop :=
  if decide (mode = Some "2D") then [prop_image_actor]
  else if decide (mode = Some "3D_VOLUME") then [prop_volume]
  else if decide (mode = Some "STL") then [prop_stl_actor]
  else [].

(** The scene is empty or shows the one prop of the Display Mode. *)
Definition scene_matches_mode (w : world) : Prop :=
  scene w = [] ∨ scene w = prop_of_mode (display_mode w).

(** The renderer holds the data of its Display Mode, and the mode is one
    of the three names or [None]. *)
Definition renderer_holds_shown_data (w : world) : Prop :=
  (display_mode w = Some "2D" ∨ display_mode w = Some "3D_VOLUME" →
   is_Some (VR.current_vtk_image (rend w))) ∧
  (display_mode w = Some "STL" → is_Some (VR.current_polydata (rend w))) ∧
  (display_mode w = None ∨ display_mode w = Some "2D" ∨
   display_mode w = Some "3D_VOLUME" ∨ display_mode w = Some "STL").

(** The [vtkImageData] that [convert_sitk_to_vtk] builds from an image. *)
Definition vtk_of_sitk (image : sitk_image) : vtk_image :=
  mk_vtk_image (img_size image) (img_spacing image) (img_origin image) (img_pixels image)
    (img_range image).

(** The three attributes of the application agree with each other and
    with the processor. *)
Definition app_state_coherent (w : world) : Prop :=
  let type := APP.current_image_type (app w) in
  (type = None ∨ type = Some "DICOM" ∨ type = Some "STL") ∧
  (type = Some "DICOM" →
   is_Some (loaded_volume w) ∧ is_Some (IP.current_vtk_image (proc w))) ∧
  (type = Some "STL" → is_Some (loaded_mesh w) ∧ APP.is_3d_view (app w) = true) ∧
  (type = None → APP.is_3d_view (app w) = false) ∧
  (is_Some (APP.current_file_path (app w)) ↔ is_Some type).

(** ** [main_application.py]: statistics for the presentation layer *)

(** A piece of the text of [getImageStatistics]: as in a message, or a
    float shown with two decimals, [f"{value:.2f}"]. *)
Inductive shown :=
| plain (p : piece)
| two_decimals (x : float).

Definition newline : string := String (Ascii.ascii_of_nat 10) EmptyString.

(** One line of the listing: [f"{key}: {value:.2f}\n"] for a float,
    [f"{key}: {value}\n"] for any other value. *)
Definition statistic_line (kv : string * value) : list shown :=
  match kv.2 with
  | VFloat x => [plain (T kv.1); plain (T ": "); two_decimals x; plain (T newline)]
  | v => [plain (T kv.1); plain (T ": "); plain (V v); plain (T newline)]
  end.

Definition getImageStatistics (st : statistics) : M (list shown) :=
  try_except
    (stats ← get_image_statistics st;
     match stats with
     | [] => mret [plain (T "No statistics available")]
     | _ =>
       mret (plain (T ("Image Statistics:" +:+ newline)) :: (stats ≫= statistic_line))
     end)
    (λ e,
       let error_msg := T "Error getting statistics: " :: exn_msg e in
       note (log_error_call "STATISTICS_GET" error_msg None);;
       mret (plain <$> (T "Error: " :: error_msg))).

(** The listing [getImageStatistics] makes of the six statistics. *)
Definition statistics_listing (st : statistics) : list shown :=
  [plain (T ("Image Statistics:" +:+ newline));
   plain (T "mean"); plain (T ": "); two_decimals (st_mean st); plain (T newline);
   plain (T "std"); plain (T ": "); two_decimals (st_std st); plain (T newline);
   plain (T "min"); plain (T ": "); two_decimals (st_min st); plain (T newline);
   plain (T "max"); plain (T ": "); two_decimals (st_max st); plain (T newline);
   plain (T "sum"); plain (T ": "); two_decimals (st_sum st); plain (T newline);
   plain (T "count"); plain (T ": "); plain (V (VInt (st_count st))); plain (T newline)].

(** The call told the presentation layer of no error. *)
Definition no_error_signal (w w' : world) : Prop :=
  ∀ sender args, emitted sender "errorOccurred" args ∉ new_events w w'.

(** * Part III. Proofs *)

(** ** The logger *)

Lemma acquire_held {A} (body : L A) s : _lock s = true → with_lock body s = Blocked s.
Proof. intros H. unfold with_lock, Logger.bind, acquire. by rewrite H. Qed.

Lemma log_event_held et msg sev s : _lock s = true → log_event et msg sev s = Blocked s.
Proof. apply acquire_held. Qed.

Lemma with_lock_free {A} (body : L A) s :
  _lock s = false →
  with_lock body s =
    match body (set_lock true s) with
    | Returned a s' => Returned a (set_lock false s')
    | Blocked s' => Blocked s'
    end.
Proof. intros H. unfold with_lock, Logger.bind, acquire. rewrite H. by destruct (body _). Qed.

Lemma nested_log_event_blocks (pre : L unit) et msg sev s :
  (∀ s0, ∃ s1, pre s0 = Returned () s1 ∧ _lock s1 = _lock s0) →
  ∃ s', with_lock (bind pre (λ _, log_event et msg sev)) s = Blocked s'.
Proof.
  intros Hpre. destruct (_lock s) eqn:E.
  - exists s. by apply acquire_held.
  - rewrite with_lock_free by done. unfold Logger.bind.
    destruct (Hpre (set_lock true s)) as (s1 & -> & Hl).
    rewrite log_event_held; eauto.
Qed.

(** C1, on the code. [threading.Lock] is not reentrant, and each of
    [log_user_action], [log_file_operation], [log_image_processing],
    [log_system_event] and [log_error] calls [log_event] while it holds
    the lock: from every state of the logger each of them blocks in
    [acquire] and never returns, so the record for the event stream is
    never written. Only [log_event] called on a free lock returns. *)
Theorem logging_wrappers_never_return :
  (∀ action details s, ∃ s', log_user_action action details s = Blocked s') ∧
  (∀ operation filepath result s, ∃ s', log_file_operation operation filepath result s = Blocked s') ∧
  (∀ operation image_info result s,
      ∃ s', log_image_processing operation image_info result s = Blocked s') ∧
  (∀ event details s, ∃ s', log_system_event event details s = Blocked s') ∧
  (∀ error_type error_message stack_trace s,
      ∃ s', log_error error_type error_message stack_trace s = Blocked s').
Proof.
  repeat split; intros.
  - apply nested_log_event_blocks. intros s0. by eexists.
  - unfold log_file_operation. destruct (_lock s) eqn:E.
    + exists s. by apply acquire_held.
    + rewrite with_lock_free by done. unfold Logger.bind at 1, Logger.modify. cbv beta iota.
      case_decide; rewrite log_event_held; eauto.
  - unfold log_image_processing. destruct (_lock s) eqn:E.
    + exists s. by apply acquire_held.
    + rewrite with_lock_free by done. unfold Logger.bind at 1, Logger.modify. cbv beta iota.
      case_decide; rewrite log_event_held; eauto.
  - apply nested_log_event_blocks. intros s0. by eexists.
  - unfold log_error. destruct (_lock s) eqn:E.
    + exists s. by apply acquire_held.
    + rewrite with_lock_free by done. unfold Logger.bind, Logger.modify. cbv beta iota.
      rewrite log_event_held; eauto.
Qed.

(** The first such call of the program, made by [ImageProcessor.__init__]
    on the logger the application has just built. *)
Example first_wrapper_call_blocks :
  ∃ s s', default_logger = Returned () s ∧
    log_system_event "IMAGE_PROCESSOR_INIT" "Image processor initialized" s = Blocked s' ∧
    event_stream s' = event_stream s.
Proof. do 2 eexists. split; [reflexivity|]. split; reflexivity. Qed.




(** ** Rules for running a computation *)

Lemma wp_ret {A} (a : A) w Q : Q (Ok a) w → wp (mret a) w Q.
Proof. done. Qed.

Lemma wp_bind {A B} (m : M A) (k : A → M B) w Q :
  wp m w (λ r w', match r with Ok a => wp (k a) w' Q | Raise e => Q (Raise e) w' end) →
  wp (m ≫= k) w Q.
Proof. unfold wp, mbind, M_bind. destruct (m w) as [[a|e] w']; done. Qed.

Lemma wp_try {A} (m : M A) h w Q :
  wp m w (λ r w', match r with Ok a => Q (Ok a) w' | Raise e => wp (h e) w' Q end) →
  wp (try_except m h) w Q.
Proof. unfold wp, try_except. destruct (m w) as [[a|e] w']; done. Qed.

Lemma wp_gets {A} (f : world → A) w Q : Q (Ok (f w)) w → wp (gets f) w Q.
Proof. done. Qed.

Lemma wp_modify f w Q : Q (Ok ()) (f w) → wp (modify f) w Q.
Proof. done. Qed.

Lemma wp_raise {A} e w (Q : result A → world → Prop) : Q (Raise e) w → wp (raise e) w Q.
Proof. done. Qed.

Lemma with_oracle_same w : with_oracle (oracle w) w = w.
Proof. by destruct w. Qed.

Lemma wp_lib w Q :
  (∀ o, Q (Ok ()) (with_oracle o w)) → (∀ e o, Q (Raise e) (with_oracle o w)) → wp lib w Q.
Proof.
  intros H1 H2. unfold wp, lib. destruct (oracle w) as [|[e|] o] eqn:E; simpl; auto.
  rewrite <- (with_oracle_same w) at 1. apply H1.
Qed.

Lemma wp_lib_calm w Q :
  calm (oracle w) → (∀ o, calm o → Q (Ok ()) (with_oracle o w)) → wp lib w Q.
Proof.
  intros Hc H. unfold wp, lib. destruct (oracle w) as [|[e|] o] eqn:E; simpl.
  - rewrite <- (with_oracle_same w) at 1. apply H. by rewrite E.
  - by inversion Hc.
  - apply H. by inversion Hc.
Qed.

Lemma wp_self {A} name (f : VR.VTKRenderer → A) w Q :
  (if vr_VTK_AVAILABLE w then Q (Ok (f (rend w))) w else Q (Raise (AttributeError name)) w) →
  wp (self_ name f) w Q.
Proof. unfold wp, self_. by destruct (vr_VTK_AVAILABLE w). Qed.

Lemma wp_new_dict d w Q :
  Q (Ok (fresh (dom (dicts w)))) (with_dicts (<[fresh (dom (dicts w)) := d]> (dicts w)) w) →
  wp (new_dict d) w Q.
Proof. done. Qed.

Lemma wp_wand {A} (m : M A) w (Q Q' : result A → world → Prop) :
  wp m w Q → (∀ r w', Q r w' → Q' r w') → wp m w Q'.
Proof. unfold wp. auto. Qed.

Lemma wp_eq {A} (m : M A) w r w' Q : wp m w Q → m w = (r, w') → Q r w'.
Proof. unfold wp. intros H E. by rewrite E in H. Qed.

(** Worlds are kept as explicit records: the setters and the projections
    are computed away after every step. *)
Ltac norm_term t :=
  eval cbv beta iota delta
    [with_ip_SIMPLEITK_AVAILABLE ip_SIMPLEITK_AVAILABLE with_ip_VTK_AVAILABLE
     ip_VTK_AVAILABLE with_vr_VTK_AVAILABLE vr_VTK_AVAILABLE with_proc proc with_rend rend
     with_app app with_dicts dicts with_trace trace with_oracle oracle
     IP.set_current_sitk_image IP.current_sitk_image IP.set_current_vtk_image
     IP.current_vtk_image IP.set_current_polydata IP.current_polydata IP.set_image_metadata
     IP.image_metadata VR.set_render_window VR.render_window VR.set_renderer VR.renderer
     VR.set_interactor VR.interactor VR.set_current_style VR.current_style
     VR.set_current_vtk_image VR.current_vtk_image VR.set_current_polydata
     VR.current_polydata VR.set_current_display_mode VR.current_display_mode
     VR.set_image_actor VR.image_actor VR.set_window_level VR.window_level
     VR.set_volume_mapper VR.volume_mapper VR.set_volume VR.volume VR.set_color_func
     VR.color_func VR.set_opacity_func VR.opacity_func VR.set_stl_mapper VR.stl_mapper
     VR.set_stl_actor VR.stl_actor APP.set_current_image_type APP.current_image_type
     APP.set_current_file_path APP.current_file_path APP.set_is_3d_view APP.is_3d_view
     on_proc on_rend on_app
     background view_props rw_has_renderer int_qt_widget int_render_window int_style wl_input wl_window wl_level wl_updated ia_input_connection vm_input vp_color vp_scalar_opacity vp_shade vp_interpolation_linear vp_ambient vp_diffuse vp_specular vol_mapper vol_property sm_input sa_mapper sa_color sa_specular sa_specular_power sa_diffuse sa_ambient] in t.

Ltac norm_goal :=
  cbv beta iota delta
    [with_ip_SIMPLEITK_AVAILABLE ip_SIMPLEITK_AVAILABLE with_ip_VTK_AVAILABLE
     ip_VTK_AVAILABLE with_vr_VTK_AVAILABLE vr_VTK_AVAILABLE with_proc proc with_rend rend
     with_app app with_dicts dicts with_trace trace with_oracle oracle
     IP.set_current_sitk_image IP.current_sitk_image IP.set_current_vtk_image
     IP.current_vtk_image IP.set_current_polydata IP.current_polydata IP.set_image_metadata
     IP.image_metadata VR.set_render_window VR.render_window VR.set_renderer VR.renderer
     VR.set_interactor VR.interactor VR.set_current_style VR.current_style
     VR.set_current_vtk_image VR.current_vtk_image VR.set_current_polydata
     VR.current_polydata VR.set_current_display_mode VR.current_display_mode
     VR.set_image_actor VR.image_actor VR.set_window_level VR.window_level
     VR.set_volume_mapper VR.volume_mapper VR.set_volume VR.volume VR.set_color_func
     VR.color_func VR.set_opacity_func VR.opacity_func VR.set_stl_mapper VR.stl_mapper
     VR.set_stl_actor VR.stl_actor APP.set_current_image_type APP.current_image_type
     APP.set_current_file_path APP.current_file_path APP.set_is_3d_view APP.is_3d_view
     on_proc on_rend on_app
     background view_props rw_has_renderer int_qt_widget int_render_window int_style wl_input wl_window wl_level wl_updated ia_input_connection vm_input vp_color vp_scalar_opacity vp_shade vp_interpolation_linear vp_ambient vp_diffuse vp_specular vol_mapper vol_property sm_input sa_mapper sa_color sa_specular sa_specular_power sa_diffuse sa_ambient].

Ltac norm_in H :=
  cbv beta iota delta
    [with_ip_SIMPLEITK_AVAILABLE ip_SIMPLEITK_AVAILABLE with_ip_VTK_AVAILABLE
     ip_VTK_AVAILABLE with_vr_VTK_AVAILABLE vr_VTK_AVAILABLE with_proc proc with_rend rend
     with_app app with_dicts dicts with_trace trace with_oracle oracle
     IP.set_current_sitk_image IP.current_sitk_image IP.set_current_vtk_image
     IP.current_vtk_image IP.set_current_polydata IP.current_polydata IP.set_image_metadata
     IP.image_metadata VR.set_render_window VR.render_window VR.set_renderer VR.renderer
     VR.set_interactor VR.interactor VR.set_current_style VR.current_style
     VR.set_current_vtk_image VR.current_vtk_image VR.set_current_polydata
     VR.current_polydata VR.set_current_display_mode VR.current_display_mode
     VR.set_image_actor VR.image_actor VR.set_window_level VR.window_level
     VR.set_volume_mapper VR.volume_mapper VR.set_volume VR.volume VR.set_color_func
     VR.color_func VR.set_opacity_func VR.opacity_func VR.set_stl_mapper VR.stl_mapper
     VR.set_stl_actor VR.stl_actor APP.set_current_image_type APP.current_image_type
     APP.set_current_file_path APP.current_file_path APP.set_is_3d_view APP.is_3d_view
     on_proc on_rend on_app
     background view_props rw_has_renderer int_qt_widget int_render_window int_style wl_input wl_window wl_level wl_updated ia_input_connection vm_input vp_color vp_scalar_opacity vp_shade vp_interpolation_linear vp_ambient vp_diffuse vp_specular vol_mapper vol_property sm_input sa_mapper sa_color sa_specular sa_specular_power sa_diffuse sa_ambient] in H.

Ltac norm_world :=
  lazymatch goal with
  | |- wp ?m ?w ?Q => let w' := norm_term w in change (wp m w' Q)
  end.

Ltac split_on b :=
  lazymatch b with
  | negb ?c => split_on c
  | orb ?c _ => split_on c
  | andb ?c _ => split_on c
  | bool_decide _ => case_bool_decide
  | _ => destruct b eqn:?
  end.

Ltac head_of m := lazymatch m with ?f _ => head_of f | _ => m end.

(** One step of the computation at the head of the goal. *)
Ltac wp_step :=
  lazymatch goal with
  | |- wp (mbind _ _) _ _ => apply wp_bind
  | |- wp (mret _) _ _ => apply wp_ret; cbv beta iota
  | |- wp (gets _) _ _ => apply wp_gets; norm_goal
  | |- wp (modify _) _ _ => apply wp_modify; cbv beta iota; try norm_world
  | |- wp (raise _) _ _ => apply wp_raise; cbv beta iota
  | |- wp lib _ _ => apply wp_lib; [intros ?|intros ? ?]; cbv beta iota; try norm_world
  | |- wp (try_except _ _) _ _ => apply wp_try
  | |- wp (self_ _ _) _ _ => apply wp_self; norm_goal
  | |- wp (new_dict _) _ _ => apply wp_new_dict; norm_goal
  | |- wp (if decide ?P then _ else _) _ _ => destruct (decide P); try (exfalso; congruence)
  | |- wp (if ?b then _ else _) _ _ =>
    first [ progress cbn [negb orb andb] | split_on b; cbn [negb orb andb] ]
  | |- wp (match ?x with _ => _ end) _ _ => destruct x eqn:?
  | |- wp (let _ := _ in _) _ _ => cbv zeta
  | |- wp ?m _ _ => let h := head_of m in unfold h
  | |- if ?b then _ else _ =>
    first [ progress cbn [negb orb andb] | split_on b; cbn [negb orb andb] ]
  | |- match ?r with Ok _ => _ | Raise _ => _ end => destruct r
  end.

(** The same when the library is known not to raise. *)
Ltac wp_step_calm :=
  lazymatch goal with
  | |- wp lib _ _ =>
    apply wp_lib_calm; [norm_goal; assumption | intros ? ?; cbv beta iota; try norm_world]
  | _ => wp_step
  end.

Ltac open_world w :=
  destruct w as [sitk vtk_ip vtk_vr [ip1 ip2 ip3 ip4]
    [vr1 vr2 vr3 vr4 vr5 vr6 vr7 vr8 vr9 vr10 vr11 vr12 vr13 vr14 vr15] [ap1 ap2 ap3] ds tr orc].

Ltac leaf :=
  first [ reflexivity | assumption
        | match goal with H : _ = _ |- _ => discriminate H end
        | (left; reflexivity) | (right; reflexivity)
        | (eexists; reflexivity)
        | (eexists; split; [reflexivity|done])
        | match goal with
          | H : is_Some ?x → is_Some ?y |- is_Some ?y =>
            apply H; first [ assumption | (eexists; reflexivity) ]
          end
        | idtac ].

Ltac frame :=
  unfold renderer_only, same_flags, unchanged, window_ready, display_mode, loaded_volume,
    loaded_mesh;
  norm_goal; repeat (split_and || intro); leaf.

Ltac close_trace :=
  unfold reports_failure; norm_goal; rewrite <- ?app_assoc; cbn [app];
  first [ by eexists [], _, _, _ | by eexists [_], _, _, _ | by eexists [_; _], _, _, _ ].

(** The trace only grows. *)
Ltac extend :=
  norm_goal;
  repeat match goal with
         | H : _ `prefix_of` _ |- _ => norm_in H
         end;
  repeat (apply prefix_app_r); first [ reflexivity | assumption ].

Ltac by_preset preset :=
  unfold installed_preset;
  destruct (decide (preset = "ct_bone")) as [->|?];
    [|destruct (decide (preset = "ct_soft_tissue")) as [->|?]].

(** Use the summary [H] of the method at the head of the goal, and open
    the world it leaves. *)
Ltac open_fresh w :=
  destruct w as [? ? ? [? ? ? ?] [? ? ? ? ? ? ? ? ? ? ? ? ? ? ?] [? ? ?] ? ? ?].

Ltac digest S :=
  unfold renderer_only, same_flags, unchanged, window_ready, display_mode, loaded_volume,
    loaded_mesh, reports_failure, prefix in S;
  norm_in S;
  repeat match goal with
         | H : _ ∧ _ |- _ => destruct H
         | H : ∃ _, _ |- _ => destruct H
         | H : _ ∨ _ |- _ => destruct H
         end;
  simplify_eq;
  repeat match goal with
         | E : VR.mk _ _ _ _ _ _ _ _ _ _ _ _ _ _ _ = VR.mk _ _ _ _ _ _ _ _ _ _ _ _ _ _ _ |- _ =>
           injection E as ?; subst
         end.

Ltac wp_call H :=
  eapply wp_wand; [apply H|];
  let r := fresh "r" in
  let w' := fresh "w" in
  let S := fresh "S" in
  intros r w' S; open_fresh w'; digest S; try (exfalso; congruence); cbv beta iota.

(** The methods whose effect is summarised by a lemma of their own. *)
Ltac is_call m :=
  let h := head_of m in
  lazymatch h with
  | validate_each => idtac
  | validate_dicom_integrity => idtac
  | load_dicom_series => idtac
  | load_stl_file => idtac
  | convert_sitk_to_vtk => idtac
  | clear_current_data => idtac
  | display_2d_image => idtac
  | display_3d_volume => idtac
  | display_stl_model => idtac
  | update_window_level => idtac
  | update_3d_transfer_function => idtac
  | reset_camera => idtac
  | clear_display => idtac
  | initialize_render_window => idtac
  end.

Ltac wp_go :=
  repeat (lazymatch goal with
          | |- wp ?m _ _ => tryif is_call m then fail else wp_step
          | _ => wp_step
          end).

Ltac wp_go_calm :=
  repeat (lazymatch goal with
          | |- wp ?m _ _ => tryif is_call m then fail else wp_step_calm
          | _ => wp_step_calm
          end).

(** ** What each method of the image processor does *)

Lemma validate_each_summary d n ids w :
  wp (validate_each d n ids) w (λ r w',
    same_flags w w' ∧ unchanged w w' ∧ trace w `prefix_of` trace w').
Proof.
  revert w. induction ids as [|series_id rest IH]; intros w; open_world w; simpl.
  - wp_go. frame; try extend.
  - wp_go.
    all: try (frame; try extend; fail).
    all: wp_call IH; frame; try extend.
Qed.

Lemma validate_dicom_integrity_summary d directory w :
  wp (validate_dicom_integrity d directory) w (λ r w',
    same_flags w w' ∧ unchanged w w' ∧ trace w `prefix_of` trace w' ∧
    ∃ v, r = Ok v ∧ (dd_series_ids d = [] → v.1 = false)).
Proof.
  open_world w. unfold validate_dicom_integrity.
  wp_go.
  all: try (frame; try extend; fail).
  all: wp_call validate_each_summary.
  all: destruct r; wp_go; frame; try extend.
Qed.

Lemma load_dicom_series_summary d directory w :
  wp (load_dicom_series d directory) w (λ r w',
    same_flags w w' ∧ rend w' = rend w ∧ app w' = app w ∧
    ((r = Ok None ∧ proc w' = proc w ∧ dicts w' = dicts w ∧ reports_failure w w') ∨
     (∃ names, let image := dd_image d names in let l := fresh (dom (dicts w)) in
        r = Ok (Some image) ∧
        proc w' = IP.set_image_metadata l (IP.set_current_sitk_image (Some image) (proc w)) ∧
        dicts w' = <[l := dicom_metadata image (length names)]> (dicts w) ∧
        dd_exists d = true ∧ dd_series_ids d ≠ []))).
Proof.
  open_world w. unfold load_dicom_series.
  wp_go.
  all: frame.
  all: first [ left; split_and!; try reflexivity; close_trace
             | right; eexists; split_and!; try reflexivity; congruence ].
Qed.

Lemma load_stl_file_summary f filepath w :
  wp (load_stl_file f filepath) w (λ r w',
    same_flags w w' ∧ rend w' = rend w ∧ app w' = app w ∧
    ((r = Ok None ∧ proc w' = proc w ∧ dicts w' = dicts w ∧ reports_failure w w') ∨
     (let polydata := sf_output f in let l := fresh (dom (dicts w)) in
        r = Ok (Some polydata) ∧
        sf_exists f = true ∧ GetNumberOfPoints polydata ≠ 0%Z ∧
        ((proc w' = IP.set_image_metadata l (IP.set_current_polydata (Some polydata) (proc w)) ∧
          dicts w' = <[l := stl_metadata polydata filepath (sf_size f)]> (dicts w)) ∨
         (proc w' = IP.set_current_polydata (Some polydata) (proc w) ∧
          dicts w' = dicts w ∧
          ∃ e, log_error_call "METADATA_EXTRACTION"
                 (T "Failed to extract STL metadata: " :: exn_msg e) None ∈ trace w'))))).
Proof.
  open_world w. unfold load_stl_file.
  wp_go.
  all: frame.
  all: first [ left; split_and!; try reflexivity; close_trace
             | right; split_and!; try reflexivity; try congruence ].
  all: first [ left; split_and!; reflexivity | right; split_and!; try reflexivity ].
  all: norm_goal; match goal with e : exn |- _ => exists e; set_solver end.
Qed.

Lemma convert_sitk_to_vtk_summary image w :
  wp (convert_sitk_to_vtk image) w (λ r w',
    same_flags w w' ∧ rend w' = rend w ∧ app w' = app w ∧ dicts w' = dicts w ∧
    ((r = Ok None ∧ proc w' = proc w ∧ reports_failure w w') ∨
     (∃ vtk_image, r = Ok (Some vtk_image) ∧
        proc w' = IP.set_current_vtk_image (Some vtk_image) (proc w)))).
Proof.
  open_world w. unfold convert_sitk_to_vtk.
  wp_go.
  all: frame.
  all: first [ left; split_and!; try reflexivity; close_trace
             | right; eexists; split_and!; reflexivity ].
Qed.

Lemma clear_current_data_summary w :
  wp clear_current_data w (λ r w',
    same_flags w w' ∧ rend w' = rend w ∧ app w' = app w ∧ r = Ok () ∧
    proc w' = IP.mk None None None (fresh (dom (dicts w))) ∧
    dicts w' = <[fresh (dom (dicts w)) := ∅]> (dicts w) ∧
    trace w' = trace w ++ [log_system_event_call "DATA_CLEARED" [T "Cleared current image data"]] ∧
    oracle w' = oracle w).
Proof. open_world w. unfold clear_current_data. wp_go. frame. Qed.

(** ** What each method of the renderer does *)

Lemma display_2d_image_summary vtk_image window level w :
  wp (display_2d_image vtk_image window level) w (λ r w',
    renderer_only w w' ∧ (window_ready w → window_ready w') ∧ (∃ b, r = Ok b) ∧
    (display_mode w' = display_mode w ∨ display_mode w' = Some "2D") ∧
    (r = Ok true →
     display_mode w' = Some "2D" ∧
     VR.window_level (rend w') = Some (applied_window_level vtk_image window level))).
Proof.
  open_world w. unfold display_2d_image.
  repeat wp_step.
  all: frame.
Qed.

Lemma display_3d_volume_summary vtk_image preset w :
  wp (display_3d_volume vtk_image preset) w (λ r w',
    renderer_only w w' ∧ (window_ready w → window_ready w') ∧ (∃ b, r = Ok b) ∧
    (display_mode w' = display_mode w ∨ display_mode w' = Some "3D_VOLUME") ∧
    (r = Ok true →
     showing_volume w' vtk_image ∧
     transfer_functions w' =
       Some (installed_preset preset (GetScalarRange vtk_image).1 (GetScalarRange vtk_image).2))).
Proof.
  by_preset preset.
  all: open_world w; unfold display_3d_volume, _setup_transfer_functions.
  all: repeat wp_step.
  all: unfold showing_volume, transfer_functions; frame.
Qed.

Lemma display_stl_model_summary polydata color w :
  wp (display_stl_model polydata color) w (λ r w',
    renderer_only w w' ∧ (window_ready w → window_ready w') ∧ (∃ b, r = Ok b) ∧
    (display_mode w' = display_mode w ∨ display_mode w' = Some "STL")).
Proof.
  open_world w. unfold display_stl_model.
  repeat wp_step.
  all: frame.
Qed.

Lemma update_window_level_summary window level w :
  wp (update_window_level window level) w (λ r w',
    renderer_only w w' ∧ (window_ready w → window_ready w') ∧ display_mode w' = display_mode w ∧
    (vr_VTK_AVAILABLE w = true → ∃ b, r = Ok b) ∧
    (vr_VTK_AVAILABLE w = true → display_mode w ≠ Some "2D" → r = Ok false ∧ w' = w) ∧
    match VR.window_level (rend w) with
    | Some wl =>
      ∃ wl', rend w' = VR.set_window_level (Some wl') (rend w) ∧
             wl_input wl' = wl_input wl ∧ wl_updated wl' = wl_updated wl ∧
             (r = Ok true → wl_window wl' = Some window ∧ wl_level wl' = Some level)
    | None => rend w' = rend w
    end).
Proof.
  open_world w. destruct vr9 as [[wi ww wlv wu]|]; unfold update_window_level.
  all: repeat wp_step.
  all: frame.
  all: try (exfalso; congruence).
  all: eexists (mk_window_level _ _ _ _); norm_goal; split_and!; try reflexivity.
  all: intros; split_and?; leaf.
Qed.

Lemma update_3d_transfer_function_summary preset w :
  wp (update_3d_transfer_function preset) w (λ r w',
    renderer_only w w' ∧ (window_ready w → window_ready w') ∧ display_mode w' = display_mode w ∧
    (vr_VTK_AVAILABLE w = true → ∃ b, r = Ok b) ∧
    (r = Ok true →
     ∃ vtk_image, VR.current_vtk_image (rend w) = Some vtk_image ∧
       transfer_functions w' =
         Some (installed_preset preset (GetScalarRange vtk_image).1
                 (GetScalarRange vtk_image).2))).
Proof.
  by_preset preset.
  all: open_world w; unfold update_3d_transfer_function, _setup_transfer_functions.
  all: repeat wp_step.
  all: unfold transfer_functions; frame.
  all: eexists; split; reflexivity.
Qed.

Lemma reset_camera_summary w :
  wp reset_camera w (λ r w', same_flags w w' ∧ unchanged w w').
Proof. open_world w. unfold reset_camera. repeat wp_step. all: frame. Qed.

Lemma clear_display_summary w :
  wp clear_display w (λ r w',
    renderer_only w w' ∧ (window_ready w → window_ready w') ∧
    ((∃ e, r = Raise e ∧ display_mode w' = display_mode w) ∨
     (r = Ok () ∧ display_mode w' = None ∧
      VR.current_vtk_image (rend w') = None ∧ VR.current_polydata (rend w') = None))).
Proof.
  open_world w. unfold clear_display.
  repeat wp_step.
  all: frame.
  all: first [ left; eexists; split; reflexivity | right; split_and!; reflexivity ].
Qed.

Lemma initialize_render_window_summary parent_widget w :
  wp (initialize_render_window parent_widget) w (λ r w',
    renderer_only w w' ∧ (window_ready w → window_ready w') ∧ display_mode w' = display_mode w ∧ ∃ b, r = Ok b).
Proof.
  open_world w. unfold initialize_render_window.
  repeat wp_step.
  all: frame.
Qed.

Ltac wp_call_any :=
  lazymatch goal with
  | |- wp (validate_dicom_integrity _ _) _ _ => wp_call validate_dicom_integrity_summary
  | |- wp (load_dicom_series _ _) _ _ => wp_call load_dicom_series_summary
  | |- wp (load_stl_file _ _) _ _ => wp_call load_stl_file_summary
  | |- wp (convert_sitk_to_vtk _) _ _ => wp_call convert_sitk_to_vtk_summary
  | |- wp clear_current_data _ _ => wp_call clear_current_data_summary
  | |- wp (display_2d_image _ _ _) _ _ => wp_call display_2d_image_summary
  | |- wp (display_3d_volume _ _) _ _ => wp_call display_3d_volume_summary
  | |- wp (display_stl_model _ _) _ _ => wp_call display_stl_model_summary
  | |- wp (update_window_level _ _) _ _ => wp_call update_window_level_summary
  | |- wp (update_3d_transfer_function _) _ _ => wp_call update_3d_transfer_function_summary
  | |- wp reset_camera _ _ => wp_call reset_camera_summary
  | |- wp clear_display _ _ => wp_call clear_display_summary
  | |- wp (initialize_render_window _) _ _ => wp_call initialize_render_window_summary
  end.

(** Run a method of the application to its end, through the summaries
    of the methods it calls. *)
Ltac wp_run := repeat first [ wp_call_any | progress wp_go ].

Lemma ui_error_intro w w' X msg :
  trace w' = X ++ [emitted application "errorOccurred" [msg]] →
  trace w `prefix_of` X → ui_error w w'.
Proof.
  intros E [k ->]. exists k, msg. by rewrite E, <- app_assoc.
Qed.

Ltac close_ui := eapply ui_error_intro; [norm_goal; reflexivity | extend].

(** ** The Display Controller: windowing *)

Lemma display_2d_image_succeeds vtk_image window level w :
  vr_VTK_AVAILABLE w = true → calm (oracle w) →
  is_Some (VR.renderer (rend w)) → is_Some (VR.render_window (rend w)) →
  is_Some (VR.interactor (rend w)) →
  ∃ w', display_2d_image vtk_image window level w = (Ok true, w').
Proof.
  intros Hv Hc [x1 H1] [x2 H2] [x3 H3].
  cut (wp (display_2d_image vtk_image window level) w (λ r _, r = Ok true)).
  { unfold wp. destruct (display_2d_image _ _ _ w) as [r w']. simpl. intros ->. by eexists. }
  open_world w. norm_in Hv. norm_in Hc. norm_in H1. norm_in H2. norm_in H3. subst.
  unfold display_2d_image. repeat wp_step_calm.
  all: first [ done | exfalso; eauto ].
Qed.



(** ** The Display Controller: presets *)



Lemma update_3d_transfer_function_succeeds preset vtk_image w :
  showing_volume w vtk_image → calm (oracle w) →
  ∃ w', update_3d_transfer_function preset w = (Ok true, w').
Proof.
  intros (Hv & Himg & Hmode & [c Hc] & [o Ho] & [rw Hrw]) Hcalm.
  cut (wp (update_3d_transfer_function preset) w (λ r _, r = Ok true)).
  { unfold wp. destruct (update_3d_transfer_function _ w) as [r w']. simpl. intros ->.
    by eexists. }
  unfold display_mode in Hmode.
  open_world w. norm_in Hv. norm_in Himg. norm_in Hmode. norm_in Hc. norm_in Ho. norm_in Hrw.
  norm_in Hcalm. subst.
  unfold update_3d_transfer_function, _setup_transfer_functions.
  repeat wp_step_calm.
  all: first [ done | exfalso; eauto ].
Qed.



(** ** The Display Controller: [updateWindowLevel] *)

(** The application's slot of the same name stops before the renderer is
    asked when the loaded data is no DICOM volume or the 3D view is on:
    it returns without an event. *)
Lemma updateWindowLevel_guard_is_silent window level w :
  APP.current_image_type (app w) ≠ Some "DICOM" ∨ APP.is_3d_view (app w) = true →
  updateWindowLevel window level w = (Ok (), w).
Proof.
  intros H. unfold updateWindowLevel, mbind, M_bind, gets, mret, M_ret. simpl.
  destruct H as [H| ->].
  - by rewrite bool_decide_eq_false_2.
  - by rewrite orb_true_r.
Qed.



(** ** The Image Loader: [get_metadata] *)

(** C10. [get_metadata] hands out a copy: the processor's dictionary and
    its entries stay as they are, the dictionary returned is another
    object with the same entries, and whatever the caller then puts into
    the returned dictionary, the processor's metadata and what later
    calls of [get_metadata] return are not affected. *)
Theorem get_metadata_returns_a_copy w d :
  metadata_map w = Some d →
  ∃ l' w', get_metadata w = (Ok l', w') ∧
    l' ≠ IP.image_metadata (proc w) ∧
    dicts w' !! l' = Some d ∧
    proc w' = proc w ∧ rend w' = rend w ∧ app w' = app w ∧
    metadata_map w' = Some d ∧
    ∀ d', let mutated := with_dicts (<[l' := d']> (dicts w')) w' in
          metadata_map mutated = Some d ∧
          ∃ l'' w'', get_metadata mutated = (Ok l'', w'') ∧
                     dicts w'' !! l'' = Some d ∧ metadata_map w'' = Some d.
Proof.
  unfold metadata_map. intros Hd.
  assert (∀ v : world, ∀ e, dicts v !! IP.image_metadata (proc v) = Some e →
            get_metadata v =
              (Ok (fresh (dom (dicts v))),
               with_dicts (<[fresh (dom (dicts v)) := e]> (dicts v)) v)) as Hget.
  { intros v e He. unfold get_metadata, mbind, M_bind, gets. simpl. by rewrite He. }
  assert (∀ v : world, ∀ e, dicts v !! IP.image_metadata (proc v) = Some e →
            fresh (dom (dicts v)) ≠ IP.image_metadata (proc v)) as Hfresh.
  { intros v e He Heq.
    apply (is_fresh (dom (dicts v))). rewrite Heq. apply elem_of_dom. by eexists. }
  pose proof (Hfresh w d Hd) as Hne.
  eexists _, _. split; [by apply Hget|].
  split; [done|]. destruct w as [a b c p r ap ds tr o]; simpl in *.
  split; [by rewrite lookup_insert_eq|].
  do 3 (split; [reflexivity|]).
  split; [by rewrite lookup_insert_ne|].
  intros d'. simpl.
  assert (<[fresh (dom ds) := d']> (<[fresh (dom ds) := d]> ds) !! IP.image_metadata p = Some d)
    as Hd'.
  { by rewrite !lookup_insert_ne. }
  split; [done|].
  eexists _, _. split; [by apply Hget|]. simpl.
  split; [by rewrite lookup_insert_eq|].
  rewrite lookup_insert_ne; [done|].
  set (v := mk_world a b c p r ap (<[fresh (dom ds) := d']> (<[fresh (dom ds) := d]> ds)) tr o).
  apply (Hfresh v d). done.
Qed.

Lemma get_metadata_returns_a_copy_witness :
  ∃ l' w', get_metadata showing_slice = (Ok l', w') ∧
           l' ≠ IP.image_metadata (proc showing_slice) ∧
           metadata_map (with_dicts (<[l' := ∅]> (dicts w')) w') =
             Some (dicom_metadata demo_image 2).
Proof.
  destruct (get_metadata_returns_a_copy showing_slice (dicom_metadata demo_image 2))
    as (l' & w' & E & Hne & _ & _ & _ & _ & _ & H).
  - vm_compute. reflexivity.
  - exists l', w'. split; [exact E|]. split; [exact Hne|]. apply (H ∅).
Defined.

(** ** The Application Controller *)

Lemma loadDicomSeries_not_found directory d w :
  dd_exists d = false ∨ dd_series_ids d = [] →
  wp (loadDicomSeries directory d) w (λ r w', unchanged w w' ∧ ui_error w w').
Proof.
  intros [Hd|Hd]; open_world w; unfold loadDicomSeries.
  all: wp_run.
  all: split; [frame|close_ui].
Qed.

Lemma loadStlFile_not_found filepath f w :
  sf_exists f = false ∨ GetNumberOfPoints (sf_output f) = 0%Z →
  wp (loadStlFile filepath f) w (λ r w', unchanged w w' ∧ ui_error w w').
Proof.
  intros [Hd|Hd]; open_world w; unfold loadStlFile.
  all: wp_run.
  all: split; [frame|close_ui].
Qed.

Ltac close_consistent :=
  unfold consistent, mode_matches_data, window_ready, same_flags, display_mode, loaded_volume,
    loaded_mesh in *;
  norm_goal;
  repeat match goal with H : _ |- _ => progress norm_in H end;
  unfold is_Some in *; naive_solver.

Lemma serve_summary r w :
  consistent w → wp (serve r) w (λ _ w', consistent w' ∧ same_flags w w').
Proof.
  intros Hc. open_world w.
  destruct r; unfold serve.
  - wp_run. all: close_consistent.
  - unfold loadDicomSeries. wp_run. all: close_consistent.
  - unfold loadStlFile. wp_run. all: close_consistent.
  - unfold switchTo2DView. wp_run. all: close_consistent.
  - unfold switchTo3DView. wp_run. all: close_consistent.
  - unfold updateWindowLevel. wp_run. all: close_consistent.
  - unfold update3DPreset. wp_run. all: close_consistent.
  - unfold resetCamera. wp_run. all: close_consistent.
  - unfold clearDisplay. wp_run. all: close_consistent.
Qed.

Lemma step_consistent w ro :
  consistent w → consistent (step w ro) ∧ same_flags w (step w ro).
Proof.
  intros Hc. destruct ro as [r o]. unfold step. simpl.
  assert (consistent (with_oracle o w)) as Hc' by (by destruct w).
  destruct (serve_summary r (with_oracle o w) Hc') as [H1 H2].
  split; [exact H1|]. by destruct w.
Qed.

Lemma run_consistent rs w :
  consistent w → consistent (run w rs) ∧ same_flags w (run w rs).
Proof.
  unfold run. revert w. induction rs as [|ro rs IH]; intros w Hc; simpl.
  - split; [exact Hc|]. by repeat split.
  - destruct (step_consistent w ro Hc) as [H1 (F1 & F2 & F3)].
    destruct (IH _ H1) as [H2 (G1 & G2 & G3)].
    split; [exact H2|]. repeat split; congruence.
Qed.

Lemma startup_consistent sitk vtk_ip vtk_vr : consistent (startup sitk vtk_ip vtk_vr).
Proof.
  repeat split; simpl; try discriminate; intros H.
  - by destruct H.
  - by apply is_Some_None in H.
  - by apply is_Some_None in H.
Qed.

(** ** The Image Loader: failures *)



(** ** Display Mode and resident data *)




(** ** [clear] *)

Lemma cleared_idempotent r : cleared (cleared r) = cleared r.
Proof. destruct r as [? [[]|] ? ? ? ? ? ? ? ? ? ? ? ? ?]; reflexivity. Qed.

Lemma clearDisplay_calm w :
  vr_VTK_AVAILABLE w = true → window_ready w → calm (oracle w) →
  wp clearDisplay w (λ r w',
    r = Ok () ∧ same_flags w w' ∧ window_ready w' ∧
    rend w' = cleared (rend w) ∧
    proc w' = IP.mk None None None (fresh (dom (dicts w))) ∧
    dicts w' = <[fresh (dom (dicts w)) := ∅]> (dicts w) ∧
    app w' = APP.mk None None false ∧
    ∃ evs, trace w' = trace w ++ evs ∧ forallb (λ ev, negb (is_error ev)) evs = true).
Proof.
  intros Hv Hw Hc. unfold window_ready in *.
  open_world w. norm_in Hv. norm_in Hw. norm_in Hc. subst.
  unfold clearDisplay. repeat wp_step_calm.
  all: try (exfalso;
            match goal with
            | H : is_Some None |- _ => by destruct H
            | H : ¬ is_Some (Some _) |- _ => apply H; by eexists
            | H : is_Some (Some _) → is_Some None |- _ => destruct H as [? [=]]; by eexists
            end).
  all: try match goal with
           | H : ¬ is_Some ?x |- _ => destruct x; [exfalso; apply H; by eexists|]
           end.
  all: unfold cleared; frame.
  all: eexists; split; [rewrite <- ?app_assoc; reflexivity|reflexivity].
Qed.



(** * Part IV. Further properties of the code *)

(** ** The logger: further properties *)

Lemma upper_ascii_idemp c : upper_ascii (upper_ascii c) = upper_ascii c.
Proof. destruct c as [[] [] [] [] [] [] [] []]; reflexivity. Qed.

Lemma upper_idemp s : upper (upper s) = upper s.
Proof. induction s as [|c s IH]; simpl; [done|]. by rewrite upper_ascii_idemp, IH. Qed.


Lemma log_system_event_blocks event details s : ∃ s', log_system_event event details s = Blocked s'.
Proof. apply nested_log_event_blocks. intros s0. by eexists. Qed.

Lemma log_error_blocks error_type error_message stack_trace s :
  ∃ s', log_error error_type error_message stack_trace s = Blocked s'.
Proof.
  unfold log_error. destruct (_lock s) eqn:E.
  - exists s. by apply acquire_held.
  - rewrite with_lock_free by done. unfold Logger.bind, Logger.modify. cbv beta iota.
    rewrite log_event_held; eauto.
Qed.

Lemma append_empty_r (s : string) : s +:+ EmptyString = s.
Proof. induction s as [|c s IH]; [done|]. change (String c (s +:+ EmptyString) = String c s). by rewrite IH. Qed.

Lemma append_assoc (s1 s2 s3 : string) : (s1 +:+ s2) +:+ s3 = s1 +:+ s2 +:+ s3.
Proof.
  induction s1 as [|c s1 IH]; [done|].
  change (String c ((s1 +:+ s2) +:+ s3) = String c (s1 +:+ s2 +:+ s3)). by rewrite IH.
Qed.

(** X2. Called on a free lock, each wrapper writes its audit line
    ([log_error] its error line too), then blocks with the lock held and
    the event stream as it was; on a held lock every logging method blocks
    at once and writes nothing. *)
Theorem wrappers_leave_audit_line_and_lock s :
  _lock s = false → configured s →
  (∀ action details, ∃ s', log_user_action action details s = Blocked s' ∧
     left_blocked s s'
       ["AUDIT | USER_ACTION | " +:+ action +:+
          (if truthy_str details then " | " +:+ details else EmptyString)] []) ∧
  (∀ operation filepath result, ∃ s',
     log_file_operation operation filepath result s = Blocked s' ∧
     left_blocked s s'
       ["AUDIT | FILE_OP | " +:+ operation +:+ " | " +:+ filepath +:+ " | " +:+ result] []) ∧
  (∀ operation image_info result, ∃ s',
     log_image_processing operation image_info result s = Blocked s' ∧
     left_blocked s s'
       ["AUDIT | IMAGE_PROC | " +:+ operation +:+ " | " +:+ image_info +:+ " | " +:+ result]
       []) ∧
  (∀ event details, ∃ s', log_system_event event details s = Blocked s' ∧
     left_blocked s s'
       ["AUDIT | SYSTEM | " +:+ event +:+
          (if truthy_str details then " | " +:+ details else EmptyString)] []) ∧
  (∀ error_type error_message, ∃ s',
     log_error error_type error_message None s = Blocked s' ∧
     left_blocked s s'
       ["AUDIT | ERROR | " +:+ error_type +:+ " | " +:+ error_message]
       ["   ERROR | medical_errors | ERROR | " +:+ error_type +:+ " | " +:+ error_message]) ∧
  (∀ s', _lock s' = true →
     (∀ event_type message severity, log_event event_type message severity s' = Blocked s') ∧
     (∀ action details, log_user_action action details s' = Blocked s') ∧
     (∀ operation filepath result,
        log_file_operation operation filepath result s' = Blocked s') ∧
     (∀ operation image_info result,
        log_image_processing operation image_info result s' = Blocked s') ∧
     (∀ event details, log_system_event event details s' = Blocked s') ∧
     (∀ error_type error_message stack_trace,
        log_error error_type error_message stack_trace s' = Blocked s')).
Proof.
  intros Hl (N1 & L1 & F1 & N2 & L2 & F2 & N3 & L3 & F3).
  destruct s as [dir sz bc lk [n1 l1 f1 s1] [n2 l2 f2 s2] [n3 l3 f3 s3]]; simpl in *; subst.
  split_and!.
  - intros action details. eexists. split; [reflexivity|].
    unfold left_blocked, audit_stream, error_stream, event_stream; simpl.
    split_and!; try done; try by rewrite app_nil_r.
    destruct details; simpl; [by rewrite append_empty_r|by rewrite append_assoc].
  - intros operation filepath result.
    unfold log_file_operation. rewrite with_lock_free by done.
    unfold Logger.bind at 1, Logger.modify. cbv beta iota.
    case_decide; rewrite log_event_held by done; eexists; (split; [reflexivity|]).
    all: unfold left_blocked, audit_stream, error_stream, event_stream; simpl.
    all: split_and!; try done; by rewrite app_nil_r.
  - intros operation image_info result.
    unfold log_image_processing. rewrite with_lock_free by done.
    unfold Logger.bind at 1, Logger.modify. cbv beta iota.
    case_decide; rewrite log_event_held by done; eexists; (split; [reflexivity|]).
    all: unfold left_blocked, audit_stream, error_stream, event_stream; simpl.
    all: split_and!; try done; by rewrite app_nil_r.
  - intros event details. eexists. split; [reflexivity|].
    unfold left_blocked, audit_stream, error_stream, event_stream; simpl.
    split_and!; try done; try by rewrite app_nil_r.
    destruct details; simpl; [by rewrite append_empty_r|by rewrite append_assoc].
  - intros error_type error_message. eexists. split; [reflexivity|].
    unfold left_blocked, audit_stream, error_stream, event_stream; simpl.
    split_and!; try done. all: by rewrite !append_assoc.
  - intros s' Hs'. split_and!; intros.
    + by apply log_event_held.
    + by apply acquire_held.
    + by apply acquire_held.
    + by apply acquire_held.
    + by apply acquire_held.
    + by apply acquire_held.
Qed.

Lemma wrappers_leave_audit_line_and_lock_witness :
  ∃ s', log_system_event "IMAGE_PROCESSOR_INIT" "Image processor initialized"
          (_setup_loggers "logs" 10485760 5) = Blocked s' ∧
        _lock s' = true ∧
        audit_stream s' =
          ["AUDIT | SYSTEM | IMAGE_PROCESSOR_INIT | Image processor initialized"] ∧
        event_stream s' = [] ∧
        log_event "VTK_INIT" "VTK render window initialized" "INFO" s' = Blocked s'.
Proof.
  destruct (wrappers_leave_audit_line_and_lock (_setup_loggers "logs" 10485760 5))
    as (_ & _ & _ & H & _ & K).
  - reflexivity.
  - repeat split; reflexivity.
  - destruct (H "IMAGE_PROCESSOR_INIT" "Image processor initialized")
      as (s' & E & Hl & Ha & _ & Hev).
    exists s'. split; [exact E|]. split; [exact Hl|]. split; [exact Ha|]. split; [exact Hev|].
    by apply K.
Defined.

(** ** Reading the event log *)

Lemma slice_from_neg_nat {A} (k : nat) (l : list A) :
  (k ≤ length l)%nat → k ≠ 0%nat → slice_from (- Z.of_nat k) l = drop (length l - k) l.
Proof.
  intros Hk Hk0. unfold slice_from.
  destruct (Z.ltb_spec (- Z.of_nat k) 0); [|lia].
  f_equal. lia.
Qed.

(** X3. For a positive [count], [get_recent_events] answers the last
    [count] lines of the event log in the order of the file, and the whole
    file when it has no more lines than that; a missing file gives the
    empty list. *)
Theorem get_recent_events_last_lines lines (n : nat) s :
  get_recent_events (event_log_lines lines) (Z.of_nat (S n)) s =
    Returned (drop (length lines - S n) lines) s ∧
  get_recent_events no_event_log (Z.of_nat (S n)) s = Returned [] s.
Proof.
  split; [|reflexivity].
  unfold get_recent_events, Logger.ret. f_equal.
  destruct (Z.ltb_spec (Z.of_nat (S n)) (Z.of_nat (length lines))).
  - apply slice_from_neg_nat; lia.
  - replace (length lines - S n)%nat with 0%nat by lia. done.
Qed.

(** X4. A [count] of zero does not give the empty list: the slice
    [lines[-0:]] is the whole file. A negative [count] [-k] gives the file
    without its first [k] lines. *)
Theorem get_recent_events_nonpositive_count lines (k : nat) s :
  get_recent_events (event_log_lines lines) (- Z.of_nat k) s = Returned (drop k lines) s.
Proof.
  unfold get_recent_events, Logger.ret. f_equal.
  destruct (Z.ltb_spec (- Z.of_nat k) (Z.of_nat (length lines))) as [H|H].
  - unfold slice_from. rewrite Z.opp_involutive.
    destruct (Z.ltb_spec (Z.of_nat k) 0); [lia|].
    destruct (decide (k ≤ length lines)%nat).
    + f_equal. lia.
    + rewrite !drop_ge by lia. done.
  - assert (k = 0%nat ∧ length lines = 0%nat) as [-> Hl] by lia.
    done.
Qed.

(** ** Purging old log files *)

Lemma cleanup_each_summary cutoff_date files unlinked s :
  let r := cleanup_each cutoff_date files unlinked s in
  match r.1 with
  | Returned _ s' =>
    s' = s ∧ r.2 = unlinked ∧ forallb (λ f, negb (needs_purge cutoff_date f)) files = true
  | Blocked _ =>
    ∃ before f after,
      files = before ++ f :: after ∧
      forallb (λ f, negb (needs_purge cutoff_date f)) before = true ∧
      needs_purge cutoff_date f = true ∧
      r.2 = unlinked ++
              match lf_stat f, lf_unlink f with
              | inr _, None => [lf_path f]
              | _, _ => []
              end
  end.
Proof.
  revert unlinked s. induction files as [|f rest IH]; intros unlinked s; simpl; [done|].
  unfold needs_purge at 1 3.
  destruct (lf_stat f) as [e|t] eqn:Est.
  - destruct (log_error_blocks "LOG_CLEANUP"
                ("Failed to remove old log file " +:+ lf_path f +:+ ": " +:+ e) None s)
      as [s' ->].
    simpl. exists [], f, rest. split_and!; try done.
    + unfold needs_purge. by rewrite Est.
    + by rewrite Est, app_nil_r.
  - destruct (t <? cutoff_date)%Z eqn:Et.
    + destruct (lf_unlink f) as [e|] eqn:Eu.
      * destruct (log_error_blocks "LOG_CLEANUP"
                    ("Failed to remove old log file " +:+ lf_path f +:+ ": " +:+ e) None s)
          as [s' ->].
        simpl. exists [], f, rest. split_and!; try done.
        -- unfold needs_purge. by rewrite Est.
        -- by rewrite Est, Eu, app_nil_r.
      * destruct (log_system_event_blocks "LOG_CLEANUP"
                    ("Removed old log file: " +:+ lf_path f) s) as [s' ->].
        simpl. exists [], f, rest. split_and!; try done.
        -- unfold needs_purge. by rewrite Est.
        -- by rewrite Est, Eu.
    + specialize (IH unlinked s). simpl in IH.
      destruct (cleanup_each cutoff_date rest unlinked s) as [[u s'|s'] ul]; simpl in *.
      * destruct IH as (-> & -> & Hall). split_and!; try done.
      * destruct IH as (before & g & after & -> & Hb & Hg & ->).
        exists (f :: before), g, after. split_and!; try done.
        simpl. rewrite Est, Et. exact Hb.
Qed.


(** ** The image processor when the libraries do not raise *)

Ltac calm_world w H :=
  open_world w; norm_in H.

(** Close [quietly w w'] for a trace that is written out, up to the
    events of the calls whose summaries are at hand. *)
Ltac hush :=
  unfold quietly, no_errors in *; norm_goal;
  repeat match goal with
         | H : ∃ _, _ |- _ => destruct H as (? & ? & ?)
         end;
  simplify_eq;
  first [ by (exists []; split; [rewrite app_nil_r|])
        | eexists; split; [rewrite <- ?app_assoc; reflexivity|];
          rewrite ?forallb_app;
          repeat match goal with
                 | H : forallb _ _ = true |- _ => rewrite H; clear H
                 end;
          reflexivity ].

Lemma validate_each_calm d n ids w :
  calm (oracle w) →
  wp (validate_each d n ids) w (λ r w',
    calm (oracle w') ∧ same_flags w w' ∧ unchanged w w' ∧ quietly w w' ∧
    r = Ok (match find (λ series_id, bool_decide (dd_file_names d series_id = [])) ids with
            | Some series_id => (false, [T "No files found for series "; T series_id])
            | None => (true, [T "DICOM series validation successful"])
            end)).
Proof.
  revert w. induction ids as [|series_id rest IH]; intros w Hc; calm_world w Hc; simpl.
  - wp_go_calm. split_and!; [norm_goal; done|frame..|hush|done].
  - wp_go_calm.
    + rewrite bool_decide_eq_true_2 by done.
      split_and!; [norm_goal; done|frame..|hush|done].
    + rewrite bool_decide_eq_false_2 by congruence.
      eapply wp_wand; [apply IH; norm_goal; done|].
      intros r w' (H1 & H2 & H3 & H4 & H5). open_fresh w'.
      unfold same_flags, unchanged, quietly in *.
      norm_in H1. norm_in H2. norm_in H3. norm_in H4.
      split_and!; [norm_goal; done|frame; naive_solver..|hush|done].
Qed.

Lemma validate_dicom_integrity_calm d directory w :
  calm (oracle w) → ip_SIMPLEITK_AVAILABLE w = true →
  wp (validate_dicom_integrity d directory) w (λ r w',
    calm (oracle w') ∧ same_flags w w' ∧ unchanged w w' ∧ quietly w w' ∧
    r = Ok (match dd_series_ids d, first_empty_series d with
            | [], _ => (false, [T "No DICOM series found"])
            | _, Some series_id => (false, [T "No files found for series "; T series_id])
            | _, None => (true, [T "DICOM series validation successful"])
            end)).
Proof.
  intros Hc Ha. unfold first_empty_series.
  calm_world w Hc. norm_in Ha. subst. unfold validate_dicom_integrity.
  wp_go_calm.
  - split_and!; [norm_goal; done|frame..|hush|done].
  - eapply wp_wand; [apply validate_each_calm; norm_goal; done|].
    intros r w' (H1 & H2 & H3 & H4 & H5). open_fresh w'.
    unfold same_flags, unchanged, quietly in *.
    norm_in H1. norm_in H2. norm_in H3. norm_in H4.
    subst r. cbv beta iota.
    split_and!; [norm_goal; done|frame; naive_solver..|hush|done].
Qed.



Lemma load_dicom_series_calm d directory w series_id rest :
  calm (oracle w) → ip_SIMPLEITK_AVAILABLE w = true → dd_exists d = true →
  dd_series_ids d = series_id :: rest → dd_file_names d series_id ≠ [] →
  let names := dd_file_names d series_id in
  let image := dd_image d names in
  let l := fresh (dom (dicts w)) in
  wp (load_dicom_series d directory) w (λ r w',
    calm (oracle w') ∧ same_flags w w' ∧ rend w' = rend w ∧ app w' = app w ∧
    quietly w w' ∧
    r = Ok (Some image) ∧
    proc w' = IP.set_image_metadata l (IP.set_current_sitk_image (Some image) (proc w)) ∧
    dicts w' = <[l := dicom_metadata image (length names)]> (dicts w)).
Proof.
  intros Hc Ha He Hids Hn names image l. subst names image l.
  calm_world w Hc. norm_in Ha. subst. unfold load_dicom_series.
  rewrite He, Hids. cbn [negb].
  destruct (dd_file_names d series_id) as [|n1 ns] eqn:En; [done|].
  wp_go_calm.
  all: try (exfalso; congruence).
  all: simplify_eq.
  all: split_and!; [norm_goal; done|frame..|hush|reflexivity|reflexivity|reflexivity].
Qed.



(** ** The keys of the Metadata Map *)

Lemma foldl_insert_lookup (l : list (string * string)) (m : gmap string value) key :
  foldl (λ m kv, <[kv.1 := VStr kv.2]> m) m l !! key =
    match snd <$> find (λ kv, bool_decide (kv.1 = key)) (reverse l) with
    | Some v => Some (VStr v)
    | None => m !! key
    end.
Proof.
  revert m. induction l as [|[k v] l IH] using rev_ind; intros m; [done|].
  rewrite foldl_snoc, reverse_snoc. simpl.
  case_bool_decide as Hk; simpl.
  - subst. by rewrite lookup_insert_eq.
  - rewrite lookup_insert_ne by done. apply IH.
Qed.

(** X8. In the Metadata Map of a DICOM load every key of the image's own
    metadata holds the image's value for it, also when the key is one of
    the eight fixed ones ([image_type], [size], ...), whose entry is then
    overwritten; each fixed key the image does not carry holds its fixed
    value. *)
Theorem dicom_metadata_lookup image num_files :
  (∀ key, dicom_metadata image num_files !! key =
            match own_entry image key with
            | Some v => Some (VStr v)
            | None => fixed_dicom_entries image num_files !! key
            end) ∧
  (own_entry image "image_type" = None →
   dicom_metadata image num_files !! "image_type" = Some (VStr "DICOM")) ∧
  (own_entry image "num_files" = None →
   dicom_metadata image num_files !! "num_files" = Some (VInt (Z.of_nat num_files))).
Proof.
  assert (∀ key, dicom_metadata image num_files !! key =
            match own_entry image key with
            | Some v => Some (VStr v)
            | None => fixed_dicom_entries image num_files !! key
            end) as H.
  { intros key. unfold dicom_metadata, own_entry. apply foldl_insert_lookup. }
  split; [exact H|]. split; intros Hown; rewrite H, Hown; reflexivity.
Qed.

Lemma dicom_metadata_lookup_witness :
  dicom_metadata tagged_image 2 !! "size" = Some (VStr "unknown") ∧
  dicom_metadata tagged_image 2 !! "image_type" = Some (VStr "DICOM").
Proof.
  destruct (dicom_metadata_lookup tagged_image 2) as (H1 & H2 & _).
  split; [rewrite H1; reflexivity|]. apply H2. reflexivity.
Defined.

(** ** Validation is stricter than loading *)

Lemma validate_each_rejects d n ids w :
  (∃ series_id, series_id ∈ ids ∧ dd_file_names d series_id = []) →
  wp (validate_each d n ids) w (λ r w',
    same_flags w w' ∧ unchanged w w' ∧ trace w `prefix_of` trace w' ∧
    match r with Ok v => v.1 = false | Raise _ => True end).
Proof.
  revert w. induction ids as [|series_id rest IH]; intros w (bad & Hin & Hbad).
  { by apply elem_of_nil in Hin. }
  open_world w; simpl.
  wp_go.
  all: try (split_and!; [frame..|extend|done]).
  eapply wp_wand; [apply IH|].
  - apply elem_of_cons in Hin as [->|Hin]; [congruence|]. by exists bad.
  - intros r w' (H1 & H2 & H3 & H4). open_fresh w'.
    unfold same_flags, unchanged in *. norm_in H1. norm_in H2. norm_in H3.
    split_and!; [frame; naive_solver..|extend|done].
Qed.

Lemma validate_dicom_integrity_rejects d directory w :
  (∃ series_id, series_id ∈ dd_series_ids d ∧ dd_file_names d series_id = []) →
  wp (validate_dicom_integrity d directory) w (λ r w',
    same_flags w w' ∧ unchanged w w' ∧ trace w `prefix_of` trace w' ∧
    ∃ msg, r = Ok (false, msg)).
Proof.
  intros Hbad. open_world w. unfold validate_dicom_integrity.
  wp_go.
  all: try (split_and!; [frame..|extend|by eexists]).
  all: eapply wp_wand; [apply validate_each_rejects; congruence|].
  all: intros r w' (H1 & H2 & H3 & H4); open_fresh w'.
  all: unfold same_flags, unchanged in *; norm_in H1; norm_in H2; norm_in H3.
  all: destruct r as [[b msg]|e]; simpl in H4; subst; wp_go.
  all: split_and!; [frame; naive_solver..|extend|by eexists].
Qed.



(** ** Conversion and mesh loading *)

Lemma convert_sitk_to_vtk_calm image w :
  calm (oracle w) → ip_VTK_AVAILABLE w = true → ip_SIMPLEITK_AVAILABLE w = true →
  let vtk_image :=
    mk_vtk_image (img_size image) (img_spacing image) (img_origin image) (img_pixels image)
      (img_range image) in
  wp (convert_sitk_to_vtk image) w (λ r w',
    calm (oracle w') ∧ same_flags w w' ∧ rend w' = rend w ∧ app w' = app w ∧
    dicts w' = dicts w ∧ quietly w w' ∧
    r = Ok (Some vtk_image) ∧
    proc w' = IP.set_current_vtk_image (Some vtk_image) (proc w)).
Proof.
  intros Hc H1 H2. calm_world w Hc. norm_in H1. norm_in H2. subst.
  unfold convert_sitk_to_vtk. wp_go_calm.
  split_and!; [norm_goal; done|frame..|hush|reflexivity|reflexivity].
Qed.



Lemma load_stl_file_calm f filepath w :
  calm (oracle w) → ip_VTK_AVAILABLE w = true → sf_exists f = true →
  GetNumberOfPoints (sf_output f) ≠ 0%Z →
  let polydata := sf_output f in
  let l := fresh (dom (dicts w)) in
  wp (load_stl_file f filepath) w (λ r w',
    calm (oracle w') ∧ same_flags w w' ∧ rend w' = rend w ∧ app w' = app w ∧
    quietly w w' ∧
    r = Ok (Some polydata) ∧
    proc w' = IP.set_image_metadata l (IP.set_current_polydata (Some polydata) (proc w)) ∧
    dicts w' = <[l := stl_metadata polydata filepath (sf_size f)]> (dicts w)).
Proof.
  intros Hc Ha He Hn polydata l. subst polydata l.
  calm_world w Hc. norm_in Ha. subst. unfold load_stl_file.
  rewrite He. cbn [negb].
  wp_go_calm.
  all: try (exfalso; congruence).
  all: split_and!; [norm_goal; done|frame..|hush|reflexivity|reflexivity|reflexivity].
Qed.



(** ** Clearing the processor *)



(** ** Statistics *)



Ltac frame_scene :=
  unfold renderer_only, same_flags, unchanged, window_ready, display_mode, loaded_volume,
    loaded_mesh, scene, interaction_style, initialised;
  norm_goal; cbn [from_option mbind option_bind];
  repeat (split_and || intro); leaf.

(** Close a goal made of conjunctions and disjunctions of equations
    between constructors. *)
Ltac settle :=
  cbn [app from_option];
  solve [ split_and?; intros;
          first [ reflexivity | discriminate | assumption | congruence
                | (eexists; reflexivity) | (left; settle) | (right; settle) ] ].

Ltac no_renderer :=
  try match goal with
      | H : ¬ is_Some ?x |- _ => destruct x; [exfalso; apply H; by eexists|]
      end.

Lemma display_2d_image_scene vtk_image window level w :
  wp (display_2d_image vtk_image window level) w (λ r w',
    VR.current_polydata (rend w') = VR.current_polydata (rend w) ∧
    ((r ≠ Ok true ∧ scene w' = scene w ∧ display_mode w' = display_mode w ∧
      VR.current_vtk_image (rend w') = VR.current_vtk_image (rend w)) ∨
     (display_mode w' = Some "2D" ∧ VR.current_vtk_image (rend w') = Some vtk_image ∧
      (r ≠ Ok true ∧ scene w' = [] ∨ scene w' = [prop_image_actor]))) ∧
    (r = Ok true →
     scene w' = [prop_image_actor] ∧
     interaction_style w' = Some vtkInteractorStyleImage ∧
     VR.current_style (rend w') = Some vtkInteractorStyleImage ∧
     VR.image_actor (rend w') = Some (mk_image_actor true) ∧
     initialised w')).
Proof.
  open_world w. unfold display_2d_image.
  repeat wp_step.
  all: frame_scene.
  all: try settle.
Qed.

Lemma display_3d_volume_scene vtk_image preset w :
  wp (display_3d_volume vtk_image preset) w (λ r w',
    VR.current_polydata (rend w') = VR.current_polydata (rend w) ∧
    ((r ≠ Ok true ∧ scene w' = scene w ∧ display_mode w' = display_mode w ∧
      VR.current_vtk_image (rend w') = VR.current_vtk_image (rend w)) ∨
     (display_mode w' = Some "3D_VOLUME" ∧ VR.current_vtk_image (rend w') = Some vtk_image ∧
      (r ≠ Ok true ∧ scene w' = [] ∨ scene w' = [prop_volume]))) ∧
    (r = Ok true →
     scene w' = [prop_volume] ∧
     interaction_style w' = Some vtkInteractorStyleTrackballCamera ∧
     VR.current_style (rend w') = Some vtkInteractorStyleTrackballCamera ∧
     VR.volume_mapper (rend w') = Some (mk_volume_mapper (Some vtk_image)) ∧
     VR.volume (rend w') =
       Some (mk_volume true
               (Some (mk_volume_property true true true true
                        (Some 0.1%float) (Some 0.7%float) (Some 0.2%float)))) ∧
     initialised w')).
Proof.
  by_preset preset.
  all: open_world w; unfold display_3d_volume, _setup_transfer_functions.
  all: repeat wp_step.
  all: frame_scene.
  all: try settle.
Qed.

Lemma display_stl_model_scene polydata color w :
  wp (display_stl_model polydata color) w (λ r w',
    VR.current_vtk_image (rend w') = VR.current_vtk_image (rend w) ∧
    ((r ≠ Ok true ∧ scene w' = scene w ∧ display_mode w' = display_mode w ∧
      VR.current_polydata (rend w') = VR.current_polydata (rend w)) ∨
     (display_mode w' = Some "STL" ∧ VR.current_polydata (rend w') = Some polydata ∧
      (r ≠ Ok true ∧ scene w' = [] ∨ scene w' = [prop_stl_actor]))) ∧
    (r = Ok true →
     scene w' = [prop_stl_actor] ∧
     interaction_style w' = Some vtkInteractorStyleTrackballCamera ∧
     VR.current_style (rend w') = Some vtkInteractorStyleTrackballCamera ∧
     VR.stl_mapper (rend w') = Some (mk_stl_mapper (Some polydata)) ∧
     VR.stl_actor (rend w') =
       Some (mk_stl_actor true (Some color) (Some 0.5%float) (Some 20%float)
               (Some 0.8%float) (Some 0.2%float)) ∧
     initialised w')).
Proof.
  open_world w. unfold display_stl_model.
  repeat wp_step.
  all: frame_scene.
  all: try settle.
Qed.

Lemma update_3d_transfer_function_scene preset w :
  wp (update_3d_transfer_function preset) w (λ r w',
    scene w' = scene w ∧ display_mode w' = display_mode w ∧
    VR.current_vtk_image (rend w') = VR.current_vtk_image (rend w) ∧
    VR.current_polydata (rend w') = VR.current_polydata (rend w)).
Proof.
  by_preset preset.
  all: open_world w; unfold update_3d_transfer_function, _setup_transfer_functions.
  all: repeat wp_step.
  all: frame_scene.
Qed.

Lemma update_window_level_scene window level w :
  wp (update_window_level window level) w (λ r w',
    scene w' = scene w ∧ display_mode w' = display_mode w ∧
    VR.current_vtk_image (rend w') = VR.current_vtk_image (rend w) ∧
    VR.current_polydata (rend w') = VR.current_polydata (rend w)).
Proof.
  open_world w. unfold update_window_level.
  repeat wp_step.
  all: frame_scene.
Qed.

Lemma initialize_render_window_scene parent_widget w :
  wp (initialize_render_window parent_widget) w (λ r w',
    (scene w' = scene w ∨ scene w' = []) ∧ display_mode w' = display_mode w ∧
    VR.current_vtk_image (rend w') = VR.current_vtk_image (rend w) ∧
    VR.current_polydata (rend w') = VR.current_polydata (rend w) ∧
    (r = Ok true →
     initialised w' ∧ scene w' = [] ∧
     VR.renderer (rend w') = Some (mk_vtkRenderer (Some (0.1, 0.1, 0.1)%float) []) ∧
     VR.render_window (rend w') = Some (mk_vtkRenderWindow true) ∧
     VR.interactor (rend w') =
       Some (mk_vtkInteractor parent_widget true (Some vtkInteractorStyleImage)))).
Proof.
  open_world w. unfold initialize_render_window.
  repeat wp_step.
  all: frame_scene.
  all: try settle.
Qed.

Lemma clear_display_scene w :
  wp clear_display w (λ r w',
    ((scene w' = scene w ∨ scene w' = []) ∧ display_mode w' = display_mode w ∧
     VR.current_vtk_image (rend w') = VR.current_vtk_image (rend w) ∧
     VR.current_polydata (rend w') = VR.current_polydata (rend w) ∧ r ≠ Ok ()) ∨
    (scene w' = [] ∧ display_mode w' = None ∧ VR.current_vtk_image (rend w') = None ∧
     VR.current_polydata (rend w') = None ∧ r = Ok ())).
Proof.
  open_world w. unfold clear_display.
  repeat wp_step.
  all: frame_scene.
  all: no_renderer; try settle.
Qed.

(** ** The renderer when the libraries do not raise *)

Ltac calm_renderer w Hc Hi :=
  destruct Hi as (Hi1 & [? Hi2] & [? Hi3] & [? Hi4]);
  calm_world w Hc; norm_in Hi1; norm_in Hi2; norm_in Hi3; norm_in Hi4; subst.

Lemma display_2d_image_calm vtk_image window level w :
  calm (oracle w) → initialised w →
  wp (display_2d_image vtk_image window level) w (λ r w',
    r = Ok true ∧ calm (oracle w') ∧ renderer_only w w' ∧ quietly w w').
Proof.
  intros Hc Hi. calm_renderer w Hc Hi. unfold display_2d_image.
  repeat wp_step_calm.
  all: try (exfalso; eauto; fail).
  all: split_and!; [reflexivity|norm_goal; done|frame|hush].
Qed.

Lemma display_3d_volume_calm vtk_image preset w :
  calm (oracle w) → initialised w →
  wp (display_3d_volume vtk_image preset) w (λ r w',
    r = Ok true ∧ calm (oracle w') ∧ renderer_only w w' ∧ quietly w w').
Proof.
  intros Hc Hi. by_preset preset.
  all: calm_renderer w Hc Hi; unfold display_3d_volume, _setup_transfer_functions.
  all: repeat wp_step_calm.
  all: try (exfalso; eauto; fail).
  all: split_and!; [reflexivity|norm_goal; done|frame|hush].
Qed.

Lemma display_stl_model_calm polydata color w :
  calm (oracle w) → initialised w →
  wp (display_stl_model polydata color) w (λ r w',
    r = Ok true ∧ calm (oracle w') ∧ renderer_only w w' ∧ quietly w w').
Proof.
  intros Hc Hi. calm_renderer w Hc Hi. unfold display_stl_model.
  repeat wp_step_calm.
  all: try (exfalso; eauto; fail).
  all: split_and!; [reflexivity|norm_goal; done|frame|hush].
Qed.

Lemma initialize_render_window_calm parent_widget w :
  calm (oracle w) → vr_VTK_AVAILABLE w = true →
  wp (initialize_render_window parent_widget) w (λ r w',
    r = Ok true ∧ calm (oracle w') ∧ renderer_only w w' ∧ quietly w w').
Proof.
  intros Hc Hv. calm_world w Hc. norm_in Hv. subst. unfold initialize_render_window.
  repeat wp_step_calm.
  all: try (exfalso; eauto; fail).
  all: split_and!; [reflexivity|norm_goal; done|frame|hush].
Qed.

Lemma wp_and {A} (m : M A) w (Q Q' : result A → world → Prop) :
  wp m w Q → wp m w Q' → wp m w (λ r w', Q r w' ∧ Q' r w').
Proof. unfold wp. auto. Qed.

Ltac digest_more S :=
  unfold quietly, no_errors, scene, interaction_style, initialised in S;
  digest S;
  repeat match goal with
         | H : ?a = ?a → _ |- _ => specialize (H eq_refl)
         end;
  repeat match goal with
         | H : _ ∧ _ |- _ => destruct H
         end;
  simplify_eq;
  cbn [from_option mbind option_bind] in *.

(** Close the conjuncts of a summary of the application on a world that
    is written out. *)
Ltac finish :=
  unfold same_flags, initialised, loaded_volume, loaded_mesh, metadata_map, display_mode,
    scene, interaction_style, vtk_of_sitk;
  norm_goal; cbn [from_option mbind option_bind];
  split_and!;
  first [ reflexivity | assumption | done
        | by rewrite lookup_insert_eq
        | by rewrite last_snoc
        | (eexists; reflexivity)
        | hush
        | idtac ].

Ltac wp_use H :=
  eapply wp_wand; [apply H|];
  let r := fresh "r" in
  let w' := fresh "w" in
  let S := fresh "S" in
  intros r w' S; open_fresh w'; digest_more S; try (exfalso; congruence); cbv beta iota.

Ltac wp_use2 H1 H2 :=
  eapply wp_wand; [apply wp_and; [apply H1|apply H2]|];
  let r := fresh "r" in
  let w' := fresh "w" in
  let S := fresh "S" in
  intros r w' S; open_fresh w'; digest_more S; try (exfalso; congruence); cbv beta iota.

Ltac side :=
  unfold initialised, calm in *; norm_goal;
  first [ assumption | reflexivity | done
        | (split_and!; first [ assumption | reflexivity | (eexists; reflexivity) ]) ].

Lemma loadDicomSeries_calm directory d w series_id rest :
  calm (oracle w) → initialised w →
  ip_SIMPLEITK_AVAILABLE w = true → ip_VTK_AVAILABLE w = true →
  truthy_str directory = true → dd_exists d = true →
  dd_series_ids d = series_id :: rest →
  first_empty_series d = None →
  let image := dd_image d (dd_file_names d series_id) in
  wp (loadDicomSeries directory d) w (λ r w',
    r = Ok () ∧ calm (oracle w') ∧ same_flags w w' ∧ initialised w' ∧
    loaded_volume w' = Some image ∧
    IP.current_vtk_image (proc w') = Some (vtk_of_sitk image) ∧
    loaded_mesh w' = loaded_mesh w ∧
    metadata_map w' = Some (dicom_metadata image (length (dd_file_names d series_id))) ∧
    display_mode w' = Some "2D" ∧ scene w' = [prop_image_actor] ∧
    VR.current_vtk_image (rend w') = Some (vtk_of_sitk image) ∧
    VR.window_level (rend w') = Some (applied_window_level (vtk_of_sitk image) None None) ∧
    interaction_style w' = Some vtkInteractorStyleImage ∧
    app w' = APP.mk (Some "DICOM") (Some directory) false ∧
    quietly w w' ∧
    last (trace w') =
      Some (emitted application "statusUpdate" [[T "DICOM series loaded successfully"]])).
Proof.
  intros Hc Hi H1 H2 Hdir Hex Hids Hfirst image. subst image.
  assert (dd_file_names d series_id ≠ []) as Hnames.
  { unfold first_empty_series in Hfirst. rewrite Hids in Hfirst. simpl in Hfirst.
    case_bool_decide; [done|]. done. }
  calm_renderer w Hc Hi. norm_in H1. norm_in H2. subst.
  unfold loadDicomSeries. wp_go_calm.
  all: try (exfalso; congruence).
  eapply wp_wand; [apply validate_dicom_integrity_calm; side|].
  intros r w' S. open_fresh w'. digest_more S. rewrite Hids, Hfirst. cbv beta iota.
  cbn [fst snd negb]. wp_go_calm.
  eapply wp_wand; [eapply load_dicom_series_calm; first [eassumption|side]|].
  intros r w' S. open_fresh w'. digest_more S. cbv beta iota. wp_go_calm.
  eapply wp_wand; [apply convert_sitk_to_vtk_calm; side|].
  intros r w' S. open_fresh w'. digest_more S. cbv beta iota. wp_go_calm.
  eapply wp_wand;
    [apply wp_and; [apply display_2d_image_calm; side|
     apply wp_and; [apply display_2d_image_scene|apply display_2d_image_summary]]|].
  intros r w' S. open_fresh w'. digest_more S.
  all: try done.
  all: cbv beta iota; wp_go_calm.
  all: finish.
Qed.

Ltac close_grows :=
  norm_goal; first [ reflexivity | apply insert_subseteq, not_elem_of_dom, is_fresh ].

Lemma serve_grows r w :
  wp (serve r) w (λ _ w', dicts w ⊆ dicts w').
Proof.
  open_world w.
  destruct r; unfold serve.
  - wp_run. all: close_grows.
  - unfold loadDicomSeries. wp_run. all: close_grows.
  - unfold loadStlFile. wp_run. all: close_grows.
  - unfold switchTo2DView. wp_run. all: close_grows.
  - unfold switchTo3DView. wp_run. all: close_grows.
  - unfold updateWindowLevel. wp_run. all: close_grows.
  - unfold update3DPreset. wp_run. all: close_grows.
  - unfold resetCamera. wp_run. all: close_grows.
  - unfold clearDisplay. wp_run. all: close_grows.
Qed.

Ltac close_app :=
  unfold app_state_coherent, loaded_volume, loaded_mesh in *;
  norm_goal;
  repeat match goal with H : _ |- _ => progress norm_in H end;
  unfold is_Some in *; naive_solver.

Lemma serve_app_coherent r w :
  app_state_coherent w → wp (serve r) w (λ _ w', app_state_coherent w').
Proof.
  intros (Ht & Hd & Hst & Hn & Hp). open_world w.
  unfold loaded_volume, loaded_mesh in *.
  norm_in Ht. norm_in Hd. norm_in Hst. norm_in Hn. norm_in Hp.
  destruct Ht as [-> | [-> | ->]].
  all: destruct r;
    unfold serve, loadDicomSeries, loadStlFile, switchTo2DView, switchTo3DView,
      updateWindowLevel, update3DPreset, resetCamera, clearDisplay.
  all: wp_run.
  all: close_app.
Qed.

Ltac wp_call_scene :=
  lazymatch goal with
  | |- wp (validate_dicom_integrity _ _) _ _ => wp_use validate_dicom_integrity_summary
  | |- wp (load_dicom_series _ _) _ _ => wp_use load_dicom_series_summary
  | |- wp (load_stl_file _ _) _ _ => wp_use load_stl_file_summary
  | |- wp (convert_sitk_to_vtk _) _ _ => wp_use convert_sitk_to_vtk_summary
  | |- wp clear_current_data _ _ => wp_use clear_current_data_summary
  | |- wp (display_2d_image _ _ _) _ _ => wp_use display_2d_image_scene
  | |- wp (display_3d_volume _ _) _ _ => wp_use display_3d_volume_scene
  | |- wp (display_stl_model _ _) _ _ => wp_use display_stl_model_scene
  | |- wp (update_window_level _ _) _ _ => wp_use update_window_level_scene
  | |- wp (update_3d_transfer_function _) _ _ => wp_use update_3d_transfer_function_scene
  | |- wp reset_camera _ _ => wp_use reset_camera_summary
  | |- wp clear_display _ _ => wp_use clear_display_scene
  | |- wp (initialize_render_window _) _ _ => wp_use initialize_render_window_scene
  end.

Ltac wp_run_scene := repeat first [ wp_call_scene | progress wp_go ].

Lemma prop_of_mode_eqs :
  prop_of_mode None = [] ∧ prop_of_mode (Some "2D") = [prop_image_actor] ∧
  prop_of_mode (Some "3D_VOLUME") = [prop_volume] ∧
  prop_of_mode (Some "STL") = [prop_stl_actor].
Proof. split_and!; reflexivity. Qed.

Ltac close_one :=
  first [ assumption | settle
        | (intros;
           repeat match goal with H : _ ∨ _ |- _ => destruct H end;
           first [ congruence | (eexists; reflexivity) | assumption ]) ].

Ltac close_scene :=
  unfold scene_matches_mode, renderer_holds_shown_data, scene, display_mode in *;
  norm_goal;
  repeat match goal with H : _ |- _ => progress norm_in H end;
  cbn [from_option] in *;
  repeat match goal with H : _ = Ok true → _ |- _ => clear H end;
  destruct prop_of_mode_eqs as (Hm0 & Hm1 & Hm2 & Hm3);
  rewrite ?Hm0, ?Hm1, ?Hm2, ?Hm3; clear Hm0 Hm1 Hm2 Hm3;
  split_and!; close_one.

Lemma serve_scene r w :
  scene_matches_mode w → renderer_holds_shown_data w →
  wp (serve r) w (λ _ w', scene_matches_mode w' ∧ renderer_holds_shown_data w').
Proof.
  intros Hs (Hi & Hp & Hm). open_world w.
  unfold scene_matches_mode, scene, display_mode in *.
  norm_in Hs. norm_in Hi. norm_in Hp. norm_in Hm.
  destruct Hm as [-> | [-> | [-> | ->]]].
  all: destruct prop_of_mode_eqs as (Hm0 & Hm1 & Hm2 & Hm3).
  all: rewrite ?Hm0, ?Hm1, ?Hm2, ?Hm3 in Hs; clear Hm0 Hm1 Hm2 Hm3.
  all: destruct Hs as [Hs|Hs].
  all: destruct r;
    unfold serve, loadDicomSeries, loadStlFile, switchTo2DView, switchTo3DView,
      updateWindowLevel, update3DPreset, resetCamera, clearDisplay.
  all: wp_run_scene.
  all: close_scene.
Qed.

(** ** What holds of every state the application reaches *)

Lemma run_invariant (P : world → Prop) :
  (∀ w o, P w → P (with_oracle o w)) →
  (∀ r w, P w → wp (serve r) w (λ _ w', P w')) →
  ∀ rs w, P w → P (run w rs).
Proof.
  intros Ho Hstep rs. unfold run.
  induction rs as [|[r o] rs IH]; intros w Hw; simpl; [done|].
  apply IH. unfold step. simpl. apply (Hstep r (with_oracle o w)). by apply Ho.
Qed.


Lemma run_scene sitk vtk_ip vtk_vr rs :
  scene_matches_mode (run (startup sitk vtk_ip vtk_vr) rs) ∧
  renderer_holds_shown_data (run (startup sitk vtk_ip vtk_vr) rs).
Proof.
  apply (run_invariant (λ w, scene_matches_mode w ∧ renderer_holds_shown_data w)).
  - intros w o. by destruct w.
  - intros r w [H1 H2]. by apply serve_scene.
  - split; [by left|]. unfold renderer_holds_shown_data. simpl.
    split_and!; try done; try by left. by intros [|].
Qed.

(** X15. In every state the application reaches, the scene is empty or
    shows exactly one prop, the one of the Display Mode: the image actor in
    2D, the volume in 3D-Volume, the mesh actor in STL mode. No prop of an
    earlier mode is ever left in the scene. *)
Theorem scene_shows_the_prop_of_the_mode sitk vtk_ip vtk_vr rs :
  let w := run (startup sitk vtk_ip vtk_vr) rs in
  scene w = [] ∨
  (display_mode w = Some "2D" ∧ scene w = [prop_image_actor]) ∨
  (display_mode w = Some "3D_VOLUME" ∧ scene w = [prop_volume]) ∨
  (display_mode w = Some "STL" ∧ scene w = [prop_stl_actor]).
Proof.
  intros w. destruct (run_scene sitk vtk_ip vtk_vr rs) as [Hs (_ & _ & Hm)].
  fold w in Hs, Hm. destruct Hs as [Hs|Hs]; [by left|].
  destruct prop_of_mode_eqs as (Hm0 & Hm1 & Hm2 & Hm3).
  destruct Hm as [Hm | [Hm | [Hm | Hm]]]; rewrite Hm in Hs.
  - left. by rewrite Hs, Hm0.
  - right; left. by rewrite Hs, Hm1.
  - right; right; left. by rewrite Hs, Hm2.
  - right; right; right. by rewrite Hs, Hm3.
Qed.

(** X16. In every state the application reaches, the Display Mode is
    [None], [2D], [3D_VOLUME] or [STL], and the renderer holds the data of
    its mode: an image in the 2D and 3D-Volume modes, a mesh in STL mode. *)
Theorem renderer_holds_the_data_it_shows sitk vtk_ip vtk_vr rs :
  renderer_holds_shown_data (run (startup sitk vtk_ip vtk_vr) rs).
Proof. by destruct (run_scene sitk vtk_ip vtk_vr rs). Qed.

(** X17. No request changes or removes a dictionary that exists: through
    any sequence of requests, under any behaviour of the libraries, a
    dictionary once made keeps its entries, so that what [get_metadata]
    has returned stays valid. New dictionaries are only added. *)
Theorem dictionaries_are_never_mutated w rs l d :
  dicts w !! l = Some d → dicts (run w rs) !! l = Some d.
Proof.
  revert w. unfold run. induction rs as [|[r o] rs IH]; intros w Hl; simpl; [done|].
  apply IH. unfold step. simpl.
  pose proof (serve_grows r (with_oracle o w)) as H. unfold wp in H.
  eapply lookup_weaken; [|exact H]. by destruct w.
Qed.

Lemma dictionaries_are_never_mutated_witness :
  dicts (run showing_slice [(load_mesh "/data/bone.stl" demo_stl, []); (clear, [])])
    !! IP.image_metadata (proc showing_slice) = Some (dicom_metadata demo_image 2).
Proof.
  apply dictionaries_are_never_mutated. vm_compute. reflexivity.
Defined.

(** ** What a display leaves in the scene *)



(** X19. Before [initialize_render_window] has succeeded, that is without
    VTK or without a renderer, each of the three displays answers [False]
    and does nothing at all: nothing is logged, no signal is emitted,
    no attribute changes. *)
Theorem display_before_initialisation_does_nothing w :
  vr_VTK_AVAILABLE w = false ∨ VR.renderer (rend w) = None →
  (∀ vtk_image window level, display_2d_image vtk_image window level w = (Ok false, w)) ∧
  (∀ vtk_image preset, display_3d_volume vtk_image preset w = (Ok false, w)) ∧
  (∀ polydata color, display_stl_model polydata color w = (Ok false, w)).
Proof.
  intros H. destruct w as [? ? v ? [] ? ? ? ?]; simpl in H.
  split_and!; intros.
  all: unfold display_2d_image, display_3d_volume, display_stl_model, mbind, M_bind, gets,
         mret, M_ret; simpl.
  all: destruct H as [-> | ->]; [done|].
  all: by destruct v.
Qed.

Lemma display_before_initialisation_does_nothing_witness :
  display_2d_image demo_vtk_image None None (startup true true true) =
    (Ok false, startup true true true).
Proof.
  destruct (display_before_initialisation_does_nothing (startup true true true)) as (H & _).
  - right. reflexivity.
  - apply H.
Defined.







(** ** The requests when the libraries do not raise *)

Lemma loadStlFile_calm filepath f w :
  calm (oracle w) → initialised w → ip_VTK_AVAILABLE w = true →
  truthy_str filepath = true → sf_exists f = true →
  GetNumberOfPoints (sf_output f) ≠ 0%Z →
  let polydata := sf_output f in
  wp (loadStlFile filepath f) w (λ r w',
    r = Ok () ∧ calm (oracle w') ∧ same_flags w w' ∧ initialised w' ∧
    loaded_mesh w' = Some polydata ∧
    loaded_volume w' = loaded_volume w ∧
    IP.current_vtk_image (proc w') = IP.current_vtk_image (proc w) ∧
    metadata_map w' = Some (stl_metadata polydata filepath (sf_size f)) ∧
    display_mode w' = Some "STL" ∧ scene w' = [prop_stl_actor] ∧
    VR.current_polydata (rend w') = Some polydata ∧
    VR.stl_actor (rend w') =
      Some (mk_stl_actor true (Some default_stl_color) (Some 0.5%float) (Some 20%float)
              (Some 0.8%float) (Some 0.2%float)) ∧
    interaction_style w' = Some vtkInteractorStyleTrackballCamera ∧
    app w' = APP.mk (Some "STL") (Some filepath) true ∧
    quietly w w' ∧
    last (trace w') =
      Some (emitted application "statusUpdate" [[T "STL file loaded successfully"]])).
Proof.
  intros Hc Hi H1 Hpath Hex Hn polydata. subst polydata.
  calm_renderer w Hc Hi. norm_in H1. subst.
  unfold loadStlFile. wp_go_calm.
  all: try (exfalso; congruence).
  eapply wp_wand; [eapply load_stl_file_calm; first [eassumption|side]|].
  intros r w' S. open_fresh w'. digest_more S. cbv beta iota. wp_go_calm.
  eapply wp_wand;
    [apply wp_and; [apply display_stl_model_calm; side|apply display_stl_model_scene]|].
  intros r w' S. open_fresh w'. digest_more S.
  all: try done.
  all: cbv beta iota; wp_go_calm.
  all: finish.
Qed.

Lemma switchTo3DView_calm vtk_image w :
  calm (oracle w) → initialised w →
  APP.current_image_type (app w) = Some "DICOM" →
  IP.current_vtk_image (proc w) = Some vtk_image →
  wp switchTo3DView w (λ r w',
    r = Ok () ∧ calm (oracle w') ∧ same_flags w w' ∧ initialised w' ∧
    proc w' = proc w ∧ dicts w' = dicts w ∧
    display_mode w' = Some "3D_VOLUME" ∧ scene w' = [prop_volume] ∧
    VR.current_vtk_image (rend w') = Some vtk_image ∧
    transfer_functions w' =
      Some (default_preset (GetScalarRange vtk_image).1 (GetScalarRange vtk_image).2) ∧
    interaction_style w' = Some vtkInteractorStyleTrackballCamera ∧
    app w' = APP.set_is_3d_view true (app w) ∧
    quietly w w' ∧
    last (trace w') = Some (emitted application "statusUpdate" [[T "Switched to 3D view"]])).
Proof.
  intros Hc Hi Ht Himg.
  calm_renderer w Hc Hi. norm_in Ht. norm_in Himg. subst.
  unfold switchTo3DView. wp_go_calm.
  all: try (exfalso; congruence).
  eapply wp_wand;
    [apply wp_and; [apply display_3d_volume_calm; side|
     apply wp_and; [apply display_3d_volume_scene|apply display_3d_volume_summary]]|].
  intros r w' S. open_fresh w'. unfold showing_volume, transfer_functions in S.
  digest_more S.
  all: try done.
  all: cbv beta iota; wp_go_calm.
  all: unfold transfer_functions; finish.
Qed.

Lemma switchTo2DView_calm vtk_image w :
  calm (oracle w) → initialised w →
  APP.current_image_type (app w) = Some "DICOM" →
  IP.current_vtk_image (proc w) = Some vtk_image →
  wp switchTo2DView w (λ r w',
    r = Ok () ∧ calm (oracle w') ∧ same_flags w w' ∧ initialised w' ∧
    proc w' = proc w ∧ dicts w' = dicts w ∧
    display_mode w' = Some "2D" ∧ scene w' = [prop_image_actor] ∧
    VR.current_vtk_image (rend w') = Some vtk_image ∧
    VR.window_level (rend w') = Some (applied_window_level vtk_image None None) ∧
    interaction_style w' = Some vtkInteractorStyleImage ∧
    app w' = APP.set_is_3d_view false (app w) ∧
    quietly w w' ∧
    last (trace w') = Some (emitted application "statusUpdate" [[T "Switched to 2D view"]])).
Proof.
  intros Hc Hi Ht Himg.
  calm_renderer w Hc Hi. norm_in Ht. norm_in Himg. subst.
  unfold switchTo2DView. wp_go_calm.
  all: try (exfalso; congruence).
  eapply wp_wand;
    [apply wp_and; [apply display_2d_image_calm; side|
     apply wp_and; [apply display_2d_image_scene|apply display_2d_image_summary]]|].
  intros r w' S. open_fresh w'. digest_more S.
  all: try done.
  all: cbv beta iota; wp_go_calm.
  all: finish.
Qed.

Lemma first_empty_series_None d :
  first_empty_series d = None ↔
  Forall (λ series_id, dd_file_names d series_id ≠ []) (dd_series_ids d).
Proof.
  unfold first_empty_series. induction (dd_series_ids d) as [|i ids IH]; simpl; [done|].
  case_bool_decide as Hi.
  - split; [done|]. by intros [? ?]%Forall_cons.
  - rewrite IH. split; [by constructor|]. by intros [? ?]%Forall_cons.
Qed.

Lemma step_eq r o w : step w (r, o) = (serve r (with_oracle o w)).2.
Proof. reflexivity. Qed.







(** X26. Without a DICOM volume as the loaded type (nothing loaded, or a
    mesh), each view switch is refused: the one thing that happens is the
    error signal saying that the view is only available for DICOM images. *)
Theorem view_switch_needs_a_dicom_volume w o :
  APP.current_image_type (app w) ≠ Some "DICOM" →
  step w (switch_2d, o) =
    with_trace (trace w ++ [emitted application "errorOccurred"
                              [[T "2D view only available for DICOM images"]]])
      (with_oracle o w) ∧
  step w (switch_3d, o) =
    with_trace (trace w ++ [emitted application "errorOccurred"
                              [[T "3D view only available for DICOM images"]]])
      (with_oracle o w).
Proof.
  intros H. rewrite !step_eq.
  unfold serve, switchTo2DView, switchTo3DView, mbind, M_bind, gets. simpl.
  rewrite bool_decide_eq_false_2 by done. simpl. done.
Qed.

Lemma view_switch_needs_a_dicom_volume_witness :
  display_mode (step showing_mesh (switch_2d, [])) = Some "STL" ∧
  last (trace (step showing_mesh (switch_2d, []))) =
    Some (emitted application "errorOccurred" [[T "2D view only available for DICOM images"]]).
Proof.
  destruct (view_switch_needs_a_dicom_volume showing_mesh []) as [H _].
  - vm_compute. discriminate.
  - rewrite H. split; vm_compute; reflexivity.
Defined.

(** ** Loading before the render window exists *)

Lemma display_2d_image_uninitialised vtk_image window level w :
  vr_VTK_AVAILABLE w = false ∨ VR.renderer (rend w) = None →
  wp (display_2d_image vtk_image window level) w (λ r w', r = Ok false ∧ w' = w).
Proof.
  intros H. unfold wp. destruct w as [? ? v ? [] ? ? ? ?]; simpl in H.
  unfold display_2d_image, mbind, M_bind, gets, mret, M_ret; simpl.
  destruct H as [-> | ->]; [done|]. by destruct v.
Qed.



(** ** The camera *)



(** ** Statistics for the presentation layer *)


